(** * Block test helpers: code-generation and serialization test callbacks

    A shallow embedding of [plugins/dev-tools/src/block_test_helpers.mocha.js].
    The file is glue between a block toolkit (workspace, generator, XML
    serializer, identifier generator), an assertion library, a stubbing
    library and a test framework.  The toolkit is a parameter; the calls the
    helpers make to it are recorded in a log, and the callbacks are programs
    of a state-and-exception monad over the world they run in. *)

From Stdlib Require Import PrimFloat.
From stdpp Require Import base strings list gmap.

Local Open Scope string_scope.
Local Open Scope list_scope.
Set Warnings "-register-all".

(** ** JavaScript values *)

(** The values a test-case field or a toolkit result can hold.  Numbers are
    IEEE doubles, as in the language. *)
Inductive value : Type :=
| VUndefined
| VNull
| VBool (b : bool)
| VNum (x : float)
| VStr (s : string)
| VArr (items : list value)
| VRegExp (source : string).

(** [ToBoolean]: what [if (v)], [!v] and [v || w] test. *)
Definition truthy (v : value) : bool :=
  match v with
  | VUndefined | VNull => false
  | VBool b => b
  | VNum x => negb (PrimFloat.eqb x 0%float || PrimFloat.is_nan x)
  | VStr s => match s with EmptyString => false | String _ _ => true end
  | VArr _ | VRegExp _ => true
  end.

(** [a || b] *)
Definition js_or (a b : value) : value := if truthy a then a else b.

(** [typeof v === 'string'] *)
Definition typeof_string (v : value) : bool :=
  match v with VStr _ => true | _ => false end.

(** [Array.isArray(v)] *)
Definition isArray (v : value) : bool :=
  match v with VArr _ => true | _ => false end.

(** [v !== undefined] *)
Definition not_undefined (v : value) : bool :=
  match v with VUndefined => false | _ => true end.

(** [v[i]]: an index past the end of an array reads [undefined]. *)
Definition index (v : value) (i : nat) : value :=
  match v with
  | VArr items => nth i items VUndefined
  | _ => VUndefined
  end.

(** ** Functions that can be stubbed *)

(** What sits behind a function-valued property: the toolkit's own
    implementation, or a sinon stub with the value it returns. *)
Inductive Impl : Type :=
| Native (name : string)
| Stub (returns : value).

(** A property of the toolkit's namespace: a nested object or a function. *)
Inductive Member : Type :=
| Namespace
| Function (f : Impl).

(** A fake held by sinon's default sandbox: the property it replaced and
    what was there before. *)
Record Fake : Type := MkFake { fake_path : string; fake_original : Impl }.

(** What [sinon.stub(obj, name)] returns: the stub made for the property
    at [stub_path], which either wraps that property or is detached from
    it. *)
Record StubHandle : Type :=
  MkStubHandle { stub_path : string; stub_wrapped : bool }.

(** Exceptions a callback can end with. *)
Inductive exn : Type :=
| AssertionError (actual expected : value)
| StructureError (msg : string)
| TypeError (msg : string).

Definition path_idGenerator : string := "Blockly.utils.idGenerator".
Definition path_TEST_ONLY : string := "Blockly.utils.idGenerator.TEST_ONLY".
Definition path_TEST_ONLY_genUid : string :=
  "Blockly.utils.idGenerator.TEST_ONLY.genUid".
Definition path_utils_genUid : string := "Blockly.utils.genUid".

Section Helpers.

(** The toolkit's objects and its mutable state are opaque. *)
Context {Dom Block Workspace Heap : Type}.

(** Calls and assertions, in the order they happen. *)
Inductive event : Type :=
| CallCreateBlock (ws : Workspace)
| CallWorkspaceToCode (gen : string) (ws : Workspace)
| CallInit (gen : string) (ws : Workspace)
| CallBlockToCode (gen : string) (b : Block)
| CallTextToDom (text : value)
| CallDomToBlock (idgen : option Impl) (dom : Dom) (ws : Workspace)
| CallBlockToDom (b : Block)
| CallDomToPrettyText (dom : Dom)
| CallAssertBlockStructure (b : Block)
| AssertEqual (actual expected : value)
| AssertMatch (actual expected : value)
| SinonStub (path : string)
| StubReturns (path : string) (v : value)
| SinonRestore.

(** The world a callback runs in. *)
Record World : Type := MkWorld {
  heap : Heap;
  env : gmap string Member;
  sandbox : list Fake;
  log : list event
}.

Definition set_heap (h : Heap) (w : World) : World :=
  MkWorld h (env w) (sandbox w) (log w).
Definition set_env (e : gmap string Member) (w : World) : World :=
  MkWorld (heap w) e (sandbox w) (log w).
Definition set_sandbox (s : list Fake) (w : World) : World :=
  MkWorld (heap w) (env w) s (log w).
Definition emit (e : event) (w : World) : World :=
  MkWorld (heap w) (env w) (sandbox w) (log w ++ [e]).

(** State and exceptions: the world is kept when a callback throws. *)
Definition M (A : Type) : Type := World -> World * (exn + A).

Definition ret {A} (a : A) : M A := fun w => (w, inr a).
Definition throw {A} (e : exn) : M A := fun w => (w, inl e).
Definition bind {A B} (m : M A) (k : A -> M B) : M B :=
  fun w =>
    match m w with
    | (w', inl e) => (w', inl e)
    | (w', inr a) => k a w'
    end.

Notation "x <- m ;; k" := (bind m (fun x => k))
  (at level 100, m at next level, right associativity).
Notation "m ;;; k" := (bind m (fun _ => k))
  (at level 100, right associativity).

(** *** The toolkit, the generator and the assertion library *)

(** The XML namespace of the toolkit and its native identifier
    generators.  [Xml_domToBlock] creates blocks, so it is handed the
    unique-ID function in effect when it is called.  A call into the
    toolkit returns a value and a new heap; a call that throws inside the
    toolkit ends the test before the helper's next step and is left out. *)
Record Toolkit : Type := MkToolkit {
  Xml_textToDom : value -> Heap -> Dom * Heap;
  Xml_domToBlock : option Impl -> Dom -> Workspace -> Heap -> Block * Heap;
  Xml_blockToDom : Block -> Heap -> Dom * Heap;
  Xml_domToPrettyText : Dom -> Heap -> value * Heap;
  native_genUid : string -> Heap -> value * Heap
}.

(** [Blockly.Generator]: the three methods the helpers call. *)
Record Generator : Type := MkGenerator {
  gen_name : string;
  gen_init : Workspace -> Heap -> Heap;
  gen_blockToCode : Block -> Heap -> value * Heap;
  gen_workspaceToCode : Workspace -> Heap -> value * Heap
}.

(** chai's [assert.equal] (non-strict [==]) and [assert.match]: whether
    the comparison holds for two values. *)
Record Chai : Type := MkChai {
  equal_holds : value -> value -> bool;
  match_holds : value -> value -> bool
}.

(** *** Test-case records *)

Record CodeGenerationTestCase : Type := MkCodeGenerationTestCase {
  expectedCode : value;
  useWorkspaceToCode : value;
  expectedInnerOrder : value;
  createBlock : Workspace -> Heap -> Block * Heap
}.

Record CodeGenerationTestSuite : Type := MkCodeGenerationTestSuite {
  generator : Generator
}.

Record SerializationTestCase : Type := MkSerializationTestCase {
  xml : value;
  expectedXml : value;
  assertBlockStructure : Block -> Heap -> (exn + unit) * Heap
}.

(** The mocha context [this] of a test. *)
Record Context : Type := MkContext { workspace : Workspace }.

Definition Callback : Type := Context -> M unit.

Context (Blockly : Toolkit) (assert : Chai).

(** *** Calls into the toolkit *)

(** A toolkit call: log it, run it on the heap. *)
Definition call {A} (e : event) (f : Heap -> A * Heap) : M A :=
  fun w => let (a, h) := f (heap w) in (set_heap h (emit e w), inr a).

(** [Blockly.utils.idGenerator && Blockly.utils.idGenerator.TEST_ONLY] *)
Definition has_TEST_ONLY (e : gmap string Member) : bool :=
  match e !! path_idGenerator with
  | Some _ =>
      match e !! path_TEST_ONLY with Some _ => true | None => false end
  | None => false
  end.

(** Where the unique-ID function lives: [.genUid] is a wrapper around
    [.TEST_ONLY.genUid] when that object exists, and the original version
    on [Blockly.utils] otherwise. *)
Definition genUid_path (e : gmap string Member) : string :=
  if has_TEST_ONLY e then path_TEST_ONLY_genUid else path_utils_genUid.

(** The unique-ID function in effect. *)
Definition idgen (w : World) : option Impl :=
  match env w !! genUid_path (env w) with
  | Some (Function f) => Some f
  | _ => None
  end.

(** A call of the unique-ID function. *)
Definition genUid : M value :=
  fun w =>
    match idgen w with
    | Some (Stub v) => (w, inr v)
    | Some (Native n) =>
        let (v, h) := native_genUid Blockly n (heap w) in (set_heap h w, inr v)
    | None => throw (TypeError "genUid is not a function") w
    end.

Definition textToDom (text : value) : M Dom :=
  call (CallTextToDom text) (Xml_textToDom Blockly text).
Definition domToBlock (dom : Dom) (ws : Workspace) : M Block :=
  fun w =>
    call (CallDomToBlock (idgen w) dom ws)
         (Xml_domToBlock Blockly (idgen w) dom ws) w.
Definition blockToDom (b : Block) : M Dom :=
  call (CallBlockToDom b) (Xml_blockToDom Blockly b).
Definition domToPrettyText (dom : Dom) : M value :=
  call (CallDomToPrettyText dom) (Xml_domToPrettyText Blockly dom).

Definition init (g : Generator) (ws : Workspace) : M unit :=
  call (CallInit (gen_name g) ws) (fun h => (tt, gen_init g ws h)).
Definition blockToCode (g : Generator) (b : Block) : M value :=
  call (CallBlockToCode (gen_name g) b) (gen_blockToCode g b).
Definition workspaceToCode (g : Generator) (ws : Workspace) : M value :=
  call (CallWorkspaceToCode (gen_name g) ws) (gen_workspaceToCode g ws).

(** *** chai *)

(** [assert.equal(actual, expected)]: throws unless the two are [==]. *)
Definition assert_equal (actual expected : value) : M unit :=
  fun w =>
    let w' := emit (AssertEqual actual expected) w in
    if equal_holds assert actual expected then (w', inr tt)
    else (w', inl (AssertionError actual expected)).

(** [assert.match(actual, expected)]: throws unless the pattern matches. *)
Definition assert_match (actual expected : value) : M unit :=
  fun w =>
    let w' := emit (AssertMatch actual expected) w in
    if match_holds assert actual expected then (w', inr tt)
    else (w', inl (AssertionError actual expected)).

(** *** sinon's default sandbox *)

(** [sinon.stub(obj, name)]: wraps an existing, not yet wrapped function
    and remembers the original; the new stub returns [undefined].  A
    property that is missing, or a function that is wrapped already, makes
    it throw.  For a property that exists and is not a function it returns
    a stub that is detached: the property stays, and since restoring that
    stub puts back what is still there, it is not kept among the fakes. *)
Definition sinon_stub (path : string) : M StubHandle :=
  fun w =>
    match env w !! path with
    | Some (Function (Native n)) =>
        (emit (SinonStub path)
           (set_sandbox (MkFake path (Native n) :: sandbox w)
              (set_env (<[path := Function (Stub VUndefined)]> (env w)) w)),
         inr (MkStubHandle path true))
    | Some (Function (Stub _)) =>
        throw (TypeError "Attempted to wrap a function which is already wrapped") w
    | Some Namespace =>
        (emit (SinonStub path) w, inr (MkStubHandle path false))
    | None => throw (TypeError "Cannot stub non-existent property") w
    end.

(** [.returns(v)] on a stub: what the stub returns from now on.  Only a
    stub that wraps a property shows behind that property. *)
Definition returns (s : StubHandle) (v : value) : M unit :=
  fun w =>
    (emit (StubReturns (stub_path s) v)
       (if stub_wrapped s
        then set_env (<[stub_path s := Function (Stub v)]> (env w)) w
        else w),
     inr tt).

(** Putting the originals back. *)
Definition restore_fakes (fakes : list Fake) (e : gmap string Member)
  : gmap string Member :=
  foldr (fun fk acc => <[fake_path fk := Function (fake_original fk)]> acc)
        e fakes.

(** [sinon.restore()]: restores every fake of the default sandbox. *)
Definition sinon_restore : M unit :=
  fun w =>
    (emit SinonRestore
       (set_sandbox [] (set_env (restore_fakes (sandbox w) (env w)) w)),
     inr tt).

(** *** createCodeGenerationTestFn_ *)

(** Lines 109-120: the values of [code] and [innerOrder] once the
    generator has run. *)
Definition generateCode (generator : Generator)
    (testCase : CodeGenerationTestCase) (this : Context) (block : Block)
  : M (value * value) :=
  if truthy (useWorkspaceToCode testCase) then
    code <- workspaceToCode generator (workspace this);;
    ret (code, VUndefined)
  else
    init generator (workspace this);;;
    code <- blockToCode generator block;;
    if isArray code then ret (index code 0, index code 1)
    else ret (code, VUndefined).

Definition createCodeGenerationTestFn_ (generator : Generator)
    (testCase : CodeGenerationTestCase) : Callback :=
  fun this =>
    block <- call (CallCreateBlock (workspace this))
                  (createBlock testCase (workspace this));;
    r <- generateCode generator testCase this block;;
    let code := fst r in
    let innerOrder := snd r in
    let assertFunc :=
      if typeof_string (expectedCode testCase)
      then assert_equal else assert_match in
    assertFunc code (expectedCode testCase);;;
    if negb (truthy (useWorkspaceToCode testCase)) &&
       not_undefined (expectedInnerOrder testCase)
    then assert_equal innerOrder (expectedInnerOrder testCase)
    else ret tt.

(** *** The serialization callbacks *)

Definition createXmlToBlockTestCallback (testCase : SerializationTestCase)
  : Callback :=
  fun this =>
    dom <- textToDom (xml testCase);;
    block <- domToBlock dom (workspace this);;
    fun w =>
      let (r, h) := assertBlockStructure testCase block (heap w) in
      (set_heap h (emit (CallAssertBlockStructure block) w), r).

Definition createXmlRoundTripTestCallback (testCase : SerializationTestCase)
  : Callback :=
  fun this =>
    dom <- textToDom (xml testCase);;
    block <- domToBlock dom (workspace this);;
    dom' <- blockToDom block;;
    generatedXml <- domToPrettyText dom';;
    let expectedXml := js_or (expectedXml testCase) (xml testCase) in
    assert_equal generatedXml expectedXml.

(** Lines 143-145 of [runCodeGenerationTestSuites]. *)
Definition createTestFn (suiteInfo : CodeGenerationTestSuite)
  : CodeGenerationTestCase -> Callback :=
  createCodeGenerationTestFn_ (generator suiteInfo).

(** *** mocha's TDD interface *)

(** What the body of a [suite(title, function() { ... })] declares. *)
Inductive Decl : Type :=
| DeclSetup (fn : Callback)
| DeclTeardown (fn : Callback)
| DeclTest (fn : Callback)
| DeclSuite (title : string) (body : list Decl).

Definition setups_of (body : list Decl) : list Callback :=
  omap (fun d => match d with DeclSetup fn => Some fn | _ => None end) body.
Definition teardowns_of (body : list Decl) : list Callback :=
  omap (fun d => match d with DeclTeardown fn => Some fn | _ => None end) body.
Definition tests_of (body : list Decl) : list Callback :=
  omap (fun d => match d with DeclTest fn => Some fn | _ => None end) body.

Inductive outcome : Type :=
| Passed
| Failed (e : exn)
| NotRun (e : exn).

(** One test as the runner saw it: the world before the setup hooks, when
    the test function is entered, when it is left, and after the teardown
    hooks. *)
Record TestRun : Type := MkTestRun {
  run_path : list string;
  run_before : World;
  run_entry : World;
  run_leave : World;
  run_after : World;
  run_result : outcome
}.

(** The hooks of one suite, in the order they were declared; the first
    that throws ends them. *)
Fixpoint run_hooks (hooks : list Callback) (this : Context) (w : World)
  : World * option exn :=
  match hooks with
  | [] => (w, None)
  | fn :: rest =>
      match fn this w with
      | (w', inl e) => (w', Some e)
      | (w', inr _) => run_hooks rest this w'
      end
  end.

(** Setup hooks run from the outermost suite inwards.  A failure is
    reported with the depth of the suite that declared the hook. *)
Fixpoint hook_down (levels : list (list Callback)) (depth : nat)
    (this : Context) (w : World) : World * option (nat * exn) :=
  match levels with
  | [] => (w, None)
  | hooks :: inner =>
      match run_hooks hooks this w with
      | (w', Some e) => (w', Some (depth, e))
      | (w', None) => hook_down inner (S depth) this w'
      end
  end.

(** Teardown hooks run from the innermost suite outwards ([levels] is
    innermost first, [depth] the depth of its head).  After a failing
    teardown hook the enclosing suites' hooks still run. *)
Fixpoint hook_up (levels : list (list Callback)) (depth : nat)
    (this : Context) (w : World) (err : option (nat * exn))
  : World * option (nat * exn) :=
  match levels with
  | [] => (w, err)
  | hooks :: outer =>
      match run_hooks hooks this w with
      | (w', Some e) => hook_up outer (pred depth) this w' (Some (depth, e))
      | (w', None) => hook_up outer (pred depth) this w' err
      end
  end.

(** One test of a suite at depth [length ups - 1]: setup hooks, the test
    function, teardown hooks.  The teardown hooks run whether or not the
    test passed; when a setup hook of depth [k] fails the test is not run
    and the teardown hooks of depth [k] and outwards run. *)
Definition run_test (path : list string) (ups downs : list (list Callback))
    (this : Context) (fn : Callback) (w : World)
  : TestRun * option (nat * exn) :=
  match hook_down ups 0 this w with
  | (w1, Some (k, e)) =>
      let '(w3, err) :=
        hook_up (reverse (take (S k) downs)) k this w1 (Some (k, e)) in
      (MkTestRun path w w1 w1 w3 (NotRun e), err)
  | (w1, None) =>
      let '(w2, r) := fn this w1 in
      let '(w3, err) :=
        hook_up (reverse downs) (pred (length downs)) this w2 None in
      (MkTestRun path w w1 w2 w3
         (match r with inl e => Failed e | inr _ => Passed end), err)
  end.

(** The tests of a suite, in order; a failing hook ends them. *)
Fixpoint run_tests (path : list string) (ups downs : list (list Callback))
    (this : Context) (tests : list Callback) (w : World)
  : list TestRun * World * option (nat * exn) :=
  match tests with
  | [] => ([], w, None)
  | fn :: rest =>
      match run_test path ups downs this fn w with
      | (r, Some err) => ([r], run_after r, Some err)
      | (r, None) =>
          let '(rs, w', err) := run_tests path ups downs this rest (run_after r) in
          (r :: rs, w', err)
      end
  end.

(** The suites nested in a body, in order, each run by [run]; a hook
    failure that reaches this level ends them. *)
Definition run_children
    (run : string -> Decl -> World -> list TestRun * World * option (nat * exn))
  : list Decl -> World -> list TestRun * World * option (nat * exn) :=
  fix nested (ds : list Decl) (w : World) :=
    match ds with
    | [] => ([], w, None)
    | (DeclSuite title _ as d) :: ds' =>
        match run title d w with
        | (rs, w', Some err) => (rs, w', Some err)
        | (rs, w', None) =>
            let '(rs', w'', err) := nested ds' w' in
            (rs ++ rs', w'', err)
        end
    | _ :: ds' => nested ds' w
    end.

(** A hook failure is passed outwards up to the suite that declared the
    hook, which ends there. *)
Definition settle (depth : nat) (err : option (nat * exn))
  : option (nat * exn) :=
  match err with
  | Some (k, e) => if Nat.eqb k depth then None else Some (k, e)
  | None => None
  end.

(** A suite at depth [length ups] whose tests are titled under [path]:
    its own tests first, then the nested suites. *)
Fixpoint run_suite (path : list string) (ups downs : list (list Callback))
    (this : Context) (suite : Decl) (w : World) {struct suite}
  : list TestRun * World * option (nat * exn) :=
  match suite with
  | DeclSuite _ body =>
      let depth := length ups in
      let ups' := ups ++ [setups_of body] in
      let downs' := downs ++ [teardowns_of body] in
      match run_tests path ups' downs' this (tests_of body) w with
      | (runs, w1, Some err) => (runs, w1, settle depth (Some err))
      | (runs, w1, None) =>
          let '(runs', w2, err) :=
            run_children
              (fun title d w => run_suite (path ++ [title]) ups' downs' this d w)
              body w1 in
          (runs ++ runs', w2, settle depth err)
      end
  | _ => ([], w, None)
  end.

(** The declarations made at the top level form the root suite. *)
Definition mocha_run (decls : list Decl) (this : Context) (w : World)
  : list TestRun * World :=
  fst (run_suite [] [] [] this (DeclSuite "" decls) w).

(** Modelled from the spec: [runTestCases] of
    [common_test_helpers.mocha.js], the generic case runner, which is
    not part of this file.  It iterates the test cases in order and
    registers, for each, the callback the factory makes for it. *)
Definition runTestCases {TC : Type} (testCases : list TC)
    (createTestCallback : TC -> Callback) : list Decl :=
  map (fun testCase => DeclTest (createTestCallback testCase)) testCases.

(** *** runSerializationTestSuite *)

(** The [setup] hook of the round-trip suite. *)
Definition roundTrip_setup : Callback :=
  fun _ w =>
    (if has_TEST_ONLY (env w) then
       stub <- sinon_stub path_TEST_ONLY_genUid;;
       returns stub (VStr "1")
     else
       stub <- sinon_stub path_utils_genUid;;
       returns stub (VStr "1")) w.

(** The [teardown] hook of the round-trip suite. *)
Definition roundTrip_teardown : Callback := fun _ => sinon_restore.

Definition runSerializationTestSuite (testCases : list SerializationTestCase)
  : list Decl :=
  [DeclSuite "Serialization"
     [DeclSuite "xmlToBlock"
        (runTestCases testCases createXmlToBlockTestCallback);
      DeclSuite "xml round-trip"
        (DeclSetup roundTrip_setup
         :: DeclTeardown roundTrip_teardown
         :: runTestCases testCases createXmlRoundTripTestCallback)]].

End Helpers.

Arguments event : clear implicits.
Arguments World : clear implicits.
Arguments M : clear implicits.
Arguments Toolkit : clear implicits.
Arguments Generator : clear implicits.
Arguments CodeGenerationTestCase : clear implicits.
Arguments CodeGenerationTestSuite : clear implicits.
Arguments SerializationTestCase : clear implicits.
Arguments Context : clear implicits.
Arguments Callback : clear implicits.
Arguments Decl : clear implicits.
Arguments TestRun : clear implicits.

(** ** A small toolkit to run the helpers on *)

Module Sample.

(** Text stands for its own DOM; a block is the text it was made from
    and the identifier it was given; the heap counts native identifiers. *)
Definition Dom : Type := string.
Definition Block : Type := (string * value)%type.
Definition Workspace : Type := unit.
Definition Heap : Type := nat.

Definition next_id (name : string) (h : Heap) : value * Heap :=
  (VStr (name ++ String.concat "" (replicate h "'")), S h).

Definition blockly : Toolkit Dom Block Workspace Heap :=
  {| Xml_textToDom text h :=
       (match text with VStr s => s | _ => "" end, h);
     Xml_domToBlock idgen dom _ h :=
       match idgen with
       | Some (Stub v) => ((dom, v), h)
       | Some (Native name) => let (v, h') := next_id name h in ((dom, v), h')
       | None => ((dom, VUndefined), h)
       end;
     Xml_blockToDom b h := (fst b, h);
     Xml_domToPrettyText dom h := (VStr dom, h);
     native_genUid := next_id |}.

(** Equality of strings and of [undefined]/[null]; pattern matching as
    equality with the pattern's source.  Enough to run the examples. *)
Definition chai : Chai :=
  {| equal_holds a b :=
       match a, b with
       | VStr s, VStr t => String.eqb s t
       | (VUndefined | VNull), (VUndefined | VNull) => true
       | VNum x, VNum y => PrimFloat.eqb x y
       | _, _ => false
       end;
     match_holds a b :=
       match a, b with
       | VStr s, VRegExp src => String.eqb s src
       | _, _ => false
       end |}.

(** A generator that emits a block's text, with order 5. *)
Definition gen : Generator Block Workspace Heap :=
  {| gen_name := "JavaScript";
     gen_init _ h := h;
     gen_blockToCode b h := (VArr [VStr (fst b); VNum 5%float], h);
     gen_workspaceToCode _ h := (VStr "workspace", h) |}.

Definition this : Context Workspace := MkContext tt.

(** The toolkit before any stub: the identifier generator sits behind
    [TEST_ONLY]. *)
Definition toolkit_env : gmap string Member :=
  <[path_TEST_ONLY_genUid := Function (Native "uid")]>
    (<[path_TEST_ONLY := Namespace]>
       (<[path_idGenerator := Namespace]> ∅)).

Definition world : World Dom Block Workspace Heap :=
  MkWorld 0 toolkit_env [] [].

(** An older toolkit: the identifier generator is [Blockly.utils.genUid]
    and there is no [TEST_ONLY]. *)
Definition legacy_world : World Dom Block Workspace Heap :=
  MkWorld 0 (<[path_utils_genUid := Function (Native "uid")]> ∅) [] [].

(** A world in which a test has already stubbed [window.alert]. *)
Definition busy_world : World Dom Block Workspace Heap :=
  MkWorld 0 (<["window.alert" := Function (Stub VUndefined)]> toolkit_env)
    [MkFake "window.alert" (Native "alert")] [].

(** A serialization case whose [expectedXml] is the empty string. *)
Definition emptyExpected : SerializationTestCase Block Heap :=
  {| xml := VStr "<block></block>";
     expectedXml := VStr "";
     assertBlockStructure _ h := (inr tt, h) |}.

(** A serialization case that gives no [expectedXml]. *)
Definition plain : SerializationTestCase Block Heap :=
  {| xml := VStr "<block></block>";
     expectedXml := VUndefined;
     assertBlockStructure b h :=
       (if String.eqb (fst b) "<block></block>"
        then inr tt else inl (StructureError "unexpected block"), h) |}.

(** A code-generation case on single-block code, with an inner order. *)
Definition literal : CodeGenerationTestCase Block Workspace Heap :=
  {| expectedCode := VStr "5";
     useWorkspaceToCode := VUndefined;
     expectedInnerOrder := VNum 5%float;
     createBlock _ h := (("5", VStr "b"), h) |}.

(** A code-generation case on whole-workspace code. *)
Definition whole : CodeGenerationTestCase Block Workspace Heap :=
  {| expectedCode := VRegExp "workspace";
     useWorkspaceToCode := VBool true;
     expectedInnerOrder := VNum 5%float;
     createBlock _ h := (("5", VStr "b"), h) |}.

(** A world in which a test has stubbed [window.confirm] through a sandbox
    of its own ([sinon.createSandbox()]): the stub is in place, and the
    default sandbox does not hold it. *)
Definition foreign_world : World Dom Block Workspace Heap :=
  MkWorld 0 (<["window.confirm" := Function (Stub (VBool true))]> toolkit_env)
    [] [].

(** A world in which [TEST_ONLY.genUid] exists but is not a function. *)
Definition odd_world : World Dom Block Workspace Heap :=
  MkWorld 0 (<[path_TEST_ONLY_genUid := Namespace]> toolkit_env) [] [].

(** A world in which the unique-ID function is already stubbed when the
    suite starts. *)
Definition stubbed_world : World Dom Block Workspace Heap :=
  MkWorld 0 (<[path_TEST_ONLY_genUid := Function (Stub (VStr "x"))]> toolkit_env)
    [MkFake path_TEST_ONLY_genUid (Native "uid")] [].

(** A serialization case that expects text the round trip does not give. *)
Definition mismatch : SerializationTestCase Block Heap :=
  {| xml := VStr "<block></block>";
     expectedXml := VStr "<block/>";
     assertBlockStructure _ h := (inl (StructureError "wrong shape"), h) |}.

(** [literal] with [useWorkspaceToCode] spelled out as [false]. *)
Definition literal_false : CodeGenerationTestCase Block Workspace Heap :=
  {| expectedCode := VStr "5";
     useWorkspaceToCode := VBool false;
     expectedInnerOrder := VNum 5%float;
     createBlock _ h := (("5", VStr "b"), h) |}.

(** [whole] with another expected inner order. *)
Definition whole_unordered : CodeGenerationTestCase Block Workspace Heap :=
  {| expectedCode := VRegExp "workspace";
     useWorkspaceToCode := VBool true;
     expectedInnerOrder := VUndefined;
     createBlock _ h := (("5", VStr "b"), h) |}.

(** A generator that agrees with [gen] on whole-workspace code only. *)
Definition other_gen : Generator Block Workspace Heap :=
  {| gen_name := "JavaScript";
     gen_init _ h := S h;
     gen_blockToCode b h := (VStr "other", S h);
     gen_workspaceToCode _ h := (VStr "workspace", h) |}.

End Sample.

(** ** What the properties are stated with *)

Section Statements.

Context {Dom Block Workspace Heap : Type}.
Context (Blockly : Toolkit Dom Block Workspace Heap) (assert : Chai).

(** What a chai assertion returns. *)
Definition verdict (holds : bool) (actual expected : value) : exn + unit :=
  if holds then inr tt else inl (AssertionError actual expected).

(** The events a callback added to the log of [w]. *)
Definition events_since (w w' : World Dom Block Workspace Heap)
  : list (event Dom Block Workspace) :=
  drop (length (log w)) (log w').

(** The last thing a callback did. *)
Definition last_event (w : World Dom Block Workspace Heap)
  : option (event Dom Block Workspace) :=
  last (log w).

Definition is_assertion (e : event Dom Block Workspace) : bool :=
  match e with
  | AssertEqual _ _ | AssertMatch _ _ => true
  | _ => false
  end.

Definition is_generator_init (e : event Dom Block Workspace) : bool :=
  match e with
  | CallInit _ _ => true
  | _ => false
  end.

(** The round-trip comparison the way the specification words it: against
    [expectedXml] unless that field is [undefined]. *)
Definition expected_when_set (testCase : SerializationTestCase Block Heap)
  : value :=
  match expectedXml testCase with
  | VUndefined => xml testCase
  | given => given
  end.

(** The round trip of a case ends by comparing the generated text with
    [expected_when_set]. *)
Definition roundTrip_compares_when_set
    (testCase : SerializationTestCase Block Heap)
    (this : Context Workspace) (w : World Dom Block Workspace Heap) : Prop :=
  exists generatedXml,
    last_event (fst (createXmlRoundTripTestCallback Blockly assert testCase this w))
    = Some (AssertEqual generatedXml (expected_when_set testCase)).

(** The code a case compares and the order it unpacks: the test function
    up to line 120. *)
Definition generation (generator : Generator Block Workspace Heap)
    (testCase : CodeGenerationTestCase Block Workspace Heap)
    (this : Context Workspace)
  : M Dom Block Workspace Heap (value * value) :=
  bind (call (CallCreateBlock (workspace this))
             (createBlock testCase (workspace this)))
       (generateCode generator testCase this).

(** The comparison of line 123. *)
Definition code_assertion (testCase : CodeGenerationTestCase Block Workspace Heap)
    (code : value) : event Dom Block Workspace :=
  if typeof_string (expectedCode testCase)
  then AssertEqual code (expectedCode testCase)
  else AssertMatch code (expectedCode testCase).

Definition code_holds (testCase : CodeGenerationTestCase Block Workspace Heap)
    (code : value) : bool :=
  if typeof_string (expectedCode testCase)
  then equal_holds assert code (expectedCode testCase)
  else match_holds assert code (expectedCode testCase).

(** The condition of line 124. *)
Definition checks_order (testCase : CodeGenerationTestCase Block Workspace Heap)
  : bool :=
  negb (truthy (useWorkspaceToCode testCase))
  && not_undefined (expectedInnerOrder testCase).

(** sinon's bookkeeping: every fake of the sandbox sits on a property that
    holds a stub, and no property is wrapped twice. *)
Definition sandbox_wf (w : World Dom Block Workspace Heap) : Prop :=
  NoDup (map fake_path (sandbox w)) /\
  forall fk, elem_of fk (sandbox w) ->
    exists v, env w !! fake_path fk = Some (Function (Stub v)).

(** What holds between the tests of the serialization suite: sinon's
    bookkeeping is sound and the unique-ID function is the native [name]. *)
Definition at_rest (name : string) (w : World Dom Block Workspace Heap) : Prop :=
  sandbox_wf w /\ idgen w = Some (Native name).

(** The world once the round-trip [setup] hook has run in [w], where the
    unique-ID function was the native [name]. *)
Definition stub_installed (name : string) (w : World Dom Block Workspace Heap)
  : World Dom Block Workspace Heap :=
  let p := genUid_path (env w) in
  MkWorld (heap w)
    (<[p := Function (Stub (VStr "1"))]> (env w))
    (MkFake p (Native name) :: sandbox w)
    (log w ++ [SinonStub p; StubReturns p (VStr "1")]).

(** The world once the round-trip [teardown] hook has run in [w]. *)
Definition stubs_restored (w : World Dom Block Workspace Heap)
  : World Dom Block Workspace Heap :=
  MkWorld (heap w) (restore_fakes (sandbox w) (env w)) []
    (log w ++ [SinonRestore]).

Definition result_of (r : exn + unit) : outcome :=
  match r with inl e => Failed e | inr _ => Passed end.

(** One test of the xmlToBlock suite, as the runner records it. *)
Definition xmlToBlock_case_run (testCase : SerializationTestCase Block Heap)
    (this : Context Workspace) (r : TestRun Dom Block Workspace Heap) : Prop :=
  let run := createXmlToBlockTestCallback Blockly testCase this (run_before r) in
  run_path r = ["Serialization"; "xmlToBlock"] /\
  run_entry r = run_before r /\
  run_leave r = fst run /\
  run_after r = fst run /\
  run_result r = result_of (snd run).

(** One test of the round-trip suite, as the runner records it: the setup
    hook, the callback of the case, the teardown hook. *)
Definition roundTrip_case_run (name : string)
    (testCase : SerializationTestCase Block Heap)
    (this : Context Workspace) (r : TestRun Dom Block Workspace Heap) : Prop :=
  let run :=
    createXmlRoundTripTestCallback Blockly assert testCase this (run_entry r) in
  run_path r = ["Serialization"; "xml round-trip"] /\
  run_entry r = stub_installed name (run_before r) /\
  run_leave r = fst run /\
  run_after r = stubs_restored (run_leave r) /\
  run_result r = result_of (snd run).

(** [n] calls of the unique-ID function, one after the other. *)
Fixpoint genUids (n : nat) : M Dom Block Workspace Heap (list value) :=
  match n with
  | O => ret []
  | S n' =>
      bind (genUid Blockly) (fun v =>
      bind (genUids n') (fun vs => ret (v :: vs)))
  end.

(** No property of the toolkit holds a sinon stub. *)
Definition no_stub_active (w : World Dom Block Workspace Heap) : Prop :=
  forall k v, env w !! k <> Some (Function (Stub v)).

(** The teardown of the round-trip suite the way the claim words it: after
    every round-trip test no sinon stub is active any more, whoever made
    it. *)
Definition teardown_clears_every_stub
    (testCases : list (SerializationTestCase Block Heap))
    (this : Context Workspace) (w : World Dom Block Workspace Heap) : Prop :=
  Forall (fun r => run_path r = ["Serialization"; "xml round-trip"] ->
                   no_stub_active (run_after r))
         (fst (mocha_run (runSerializationTestSuite Blockly assert testCases)
                 this w)).

(** The hooks the runner hands to the tests of the two nested suites. *)
Definition xmlToBlock_hooks : list (list (Callback Dom Block Workspace Heap)) :=
  [[]; []; []].
Definition roundTrip_ups : list (list (Callback Dom Block Workspace Heap)) :=
  [[]; []; [roundTrip_setup]].
Definition roundTrip_downs : list (list (Callback Dom Block Workspace Heap)) :=
  [[]; []; [roundTrip_teardown]].

End Statements.

(** ** Properties of the callbacks *)

Section CallbackProperties.

Context {Dom Block Workspace Heap : Type}.
Context (Blockly : Toolkit Dom Block Workspace Heap) (assert : Chai).

Lemma log_emit (e : event Dom Block Workspace)
    (w : World Dom Block Workspace Heap) :
  log (emit e w) = log w ++ [e].
Proof. reflexivity. Qed.

(** The run of the round-trip callback, step by step. *)
Lemma roundTrip_run (testCase : SerializationTestCase Block Heap)
    (this : Context Workspace) (w : World Dom Block Workspace Heap) :
  let ws := workspace this in
  let '(dom, h1) := Xml_textToDom Blockly (xml testCase) (heap w) in
  let '(block, h2) := Xml_domToBlock Blockly (idgen w) dom ws h1 in
  let '(dom', h3) := Xml_blockToDom Blockly block h2 in
  let '(generatedXml, h4) := Xml_domToPrettyText Blockly dom' h3 in
  let expected := js_or (expectedXml testCase) (xml testCase) in
  createXmlRoundTripTestCallback Blockly assert testCase this w =
    (MkWorld h4 (env w) (sandbox w)
       (log w ++ [CallTextToDom (xml testCase);
                  CallDomToBlock (idgen w) dom ws;
                  CallBlockToDom block;
                  CallDomToPrettyText dom';
                  AssertEqual generatedXml expected]),
     verdict (equal_holds assert generatedXml expected) generatedXml expected).
Proof.
  unfold createXmlRoundTripTestCallback, bind, textToDom, domToBlock,
    blockToDom, domToPrettyText, call, assert_equal, verdict; simpl.
  destruct (Xml_textToDom _ _ _) as [dom h1]; simpl.
  destruct (Xml_domToBlock _ _ _ _ _) as [block h2]; simpl.
  destruct (Xml_blockToDom _ _ _) as [dom' h3]; simpl.
  destruct (Xml_domToPrettyText _ _ _) as [generatedXml h4]; simpl.
  unfold idgen, emit, set_heap; simpl.
  rewrite <- !app_assoc; simpl.
  destruct (equal_holds _ _ _); reflexivity.
Qed.

Lemma roundTrip_keeps_stubs (testCase : SerializationTestCase Block Heap)
    (this : Context Workspace) (w : World Dom Block Workspace Heap) :
  let w' := fst (createXmlRoundTripTestCallback Blockly assert testCase this w) in
  env w' = env w /\ sandbox w' = sandbox w.
Proof.
  pose proof (roundTrip_run testCase this w) as H; simpl in H.
  destruct (Xml_textToDom _ _ _) as [dom h1].
  destruct (Xml_domToBlock _ _ _ _ _) as [block h2].
  destruct (Xml_blockToDom _ _ _) as [dom' h3].
  destruct (Xml_domToPrettyText _ _ _) as [generatedXml h4].
  simpl; rewrite H; simpl; split; reflexivity.
Qed.

Lemma xmlToBlock_keeps_stubs (testCase : SerializationTestCase Block Heap)
    (this : Context Workspace) (w : World Dom Block Workspace Heap) :
  let w' := fst (createXmlToBlockTestCallback Blockly testCase this w) in
  env w' = env w /\ sandbox w' = sandbox w.
Proof.
  unfold createXmlToBlockTestCallback, bind, textToDom, domToBlock, call; simpl.
  destruct (Xml_textToDom _ _ _) as [dom h1]; simpl.
  destruct (Xml_domToBlock _ _ _ _ _) as [block h2]; simpl.
  destruct (assertBlockStructure _ _ _) as [r h3]; simpl.
  split; reflexivity.
Qed.

(** The run of the test function up to line 120. *)
Lemma generation_run (generator : Generator Block Workspace Heap)
    (testCase : CodeGenerationTestCase Block Workspace Heap)
    (this : Context Workspace) (w : World Dom Block Workspace Heap) :
  let ws := workspace this in
  let g := gen_name generator in
  let '(block, h1) := createBlock testCase ws (heap w) in
  generation generator testCase this w =
    if truthy (useWorkspaceToCode testCase) then
      let '(code, h2) := gen_workspaceToCode generator ws h1 in
      (MkWorld h2 (env w) (sandbox w)
         (log w ++ [CallCreateBlock ws; CallWorkspaceToCode g ws]),
       inr (code, VUndefined))
    else
      let '(res, h3) := gen_blockToCode generator block (gen_init generator ws h1) in
      (MkWorld h3 (env w) (sandbox w)
         (log w ++ [CallCreateBlock ws; CallInit g ws; CallBlockToCode g block]),
       inr (if isArray res then (index res 0, index res 1)
            else (res, VUndefined))).
Proof.
  unfold generation, generateCode, bind, call, workspaceToCode, init,
    blockToCode, call; simpl.
  destruct (createBlock _ _ _) as [block h1]; simpl.
  destruct (truthy (useWorkspaceToCode testCase)); simpl.
  - destruct (gen_workspaceToCode _ _ _) as [code h2]; simpl.
    unfold set_heap, emit; simpl. rewrite <- !app_assoc. reflexivity.
  - destruct (gen_blockToCode _ _ _) as [res h3]; simpl.
    unfold set_heap, emit; simpl. rewrite <- !app_assoc.
    destruct (isArray res); reflexivity.
Qed.

(** The generator calls do not throw in this model: the test function
    always reaches line 121. *)
Lemma generation_returns (generator : Generator Block Workspace Heap)
    (testCase : CodeGenerationTestCase Block Workspace Heap)
    (this : Context Workspace) (w : World Dom Block Workspace Heap) :
  exists w2 code innerOrder,
    generation generator testCase this w = (w2, inr (code, innerOrder)).
Proof.
  pose proof (generation_run generator testCase this w) as H; simpl in H.
  destruct (createBlock _ _ _) as [block h1].
  destruct (truthy (useWorkspaceToCode testCase)).
  - destruct (gen_workspaceToCode _ _ _) as [code h2]. eauto.
  - destruct (gen_blockToCode _ _ _) as [res h3].
    destruct (isArray res); eauto.
Qed.

(** The run of the test function from line 121 on. *)
Lemma codegen_run (generator : Generator Block Workspace Heap)
    (testCase : CodeGenerationTestCase Block Workspace Heap)
    (this : Context Workspace) (w w2 : World Dom Block Workspace Heap)
    (code innerOrder : value) :
  generation generator testCase this w = (w2, inr (code, innerOrder)) ->
  createCodeGenerationTestFn_ assert generator testCase this w =
    let w3 := emit (code_assertion testCase code) w2 in
    if code_holds assert testCase code then
      if checks_order testCase then
        (emit (AssertEqual innerOrder (expectedInnerOrder testCase)) w3,
         verdict (equal_holds assert innerOrder (expectedInnerOrder testCase))
                 innerOrder (expectedInnerOrder testCase))
      else (w3, inr tt)
    else (w3, inl (AssertionError code (expectedCode testCase))).
Proof.
  unfold generation, createCodeGenerationTestFn_, bind; simpl.
  destruct (call _ _ w) as [w1 [e|block]]; [discriminate|].
  intros ->; simpl.
  unfold code_assertion, code_holds, checks_order, assert_equal, assert_match,
    verdict, ret.
  destruct (typeof_string (expectedCode testCase)); simpl.
  - destruct (equal_holds assert code _); [|reflexivity].
    destruct (negb _ && _); [|reflexivity].
    destruct (equal_holds assert innerOrder _); reflexivity.
  - destruct (match_holds assert code _); [|reflexivity].
    destruct (negb _ && _); [|reflexivity].
    destruct (equal_holds assert innerOrder _); reflexivity.
Qed.

Lemma last_app_snoc {A : Type} (before added : list A) (x : A) :
  last (before ++ added ++ [x]) = Some x.
Proof. rewrite app_assoc. apply last_snoc. Qed.

Lemma events_since_app (w w' : World Dom Block Workspace Heap)
    (added : list (event Dom Block Workspace)) :
  log w' = log w ++ added -> events_since w w' = added.
Proof.
  unfold events_since. intros ->. apply drop_app_length.
Qed.

(** C7.  The xmlToBlock callback of a serialization case parses the case's
    [xml] text into a DOM, converts that DOM to a block on the workspace of
    the current test, and then calls the case's [assertBlockStructure] on
    that block; the callback makes no other call and ends as
    [assertBlockStructure] ends. *)
Theorem xmlToBlock_parses_converts_asserts
    (testCase : SerializationTestCase Block Heap)
    (this : Context Workspace) (w : World Dom Block Workspace Heap) :
  let ws := workspace this in
  let '(dom, h1) := Xml_textToDom Blockly (xml testCase) (heap w) in
  let '(block, h2) := Xml_domToBlock Blockly (idgen w) dom ws h1 in
  let '(result, h3) := assertBlockStructure testCase block h2 in
  createXmlToBlockTestCallback Blockly testCase this w =
    (MkWorld h3 (env w) (sandbox w)
       (log w ++ [CallTextToDom (xml testCase);
                  CallDomToBlock (idgen w) dom ws;
                  CallAssertBlockStructure block]),
     result).
Proof.
  unfold createXmlToBlockTestCallback, bind, textToDom, domToBlock, call; simpl.
  destruct (Xml_textToDom _ _ _) as [dom h1]; simpl.
  destruct (Xml_domToBlock _ _ _ _ _) as [block h2]; simpl.
  destruct (assertBlockStructure _ _ _) as [r h3]; simpl.
  unfold set_heap, emit; simpl. rewrite <- !app_assoc. reflexivity.
Qed.

(** C1, as amended.  The round-trip callback of a serialization case parses
    the case's [xml] text into a block, serializes that block back to
    pretty-printed XML text, and asserts that the text equals [expectedXml]
    when that field is truthy (a non-empty string), and equals [xml] when
    the field is unset or otherwise falsy. *)
Theorem roundTrip_asserts_truthy_expectedXml
    (testCase : SerializationTestCase Block Heap)
    (this : Context Workspace) (w : World Dom Block Workspace Heap) :
  let ws := workspace this in
  let '(dom, h1) := Xml_textToDom Blockly (xml testCase) (heap w) in
  let '(block, h2) := Xml_domToBlock Blockly (idgen w) dom ws h1 in
  let '(dom', h3) := Xml_blockToDom Blockly block h2 in
  let '(generatedXml, h4) := Xml_domToPrettyText Blockly dom' h3 in
  let expected :=
    if truthy (expectedXml testCase)
    then expectedXml testCase else xml testCase in
  createXmlRoundTripTestCallback Blockly assert testCase this w =
    (MkWorld h4 (env w) (sandbox w)
       (log w ++ [CallTextToDom (xml testCase);
                  CallDomToBlock (idgen w) dom ws;
                  CallBlockToDom block;
                  CallDomToPrettyText dom';
                  AssertEqual generatedXml expected]),
     if equal_holds assert generatedXml expected then inr tt
     else inl (AssertionError generatedXml expected)).
Proof.
  pose proof (roundTrip_run testCase this w) as Hrun.
  unfold js_or, verdict in Hrun.
  exact Hrun.
Qed.

(** C9.  When a case's [expectedXml] is falsy (the empty string, or any
    other falsy value), the round-trip callback compares the generated XML
    with the case's [xml], not with the [expectedXml] it was given. *)
Theorem roundTrip_falsy_expectedXml_compares_xml
    (testCase : SerializationTestCase Block Heap)
    (this : Context Workspace) (w : World Dom Block Workspace Heap) :
  truthy (expectedXml testCase) = false ->
  let ws := workspace this in
  let '(dom, h1) := Xml_textToDom Blockly (xml testCase) (heap w) in
  let '(block, h2) := Xml_domToBlock Blockly (idgen w) dom ws h1 in
  let '(dom', h3) := Xml_blockToDom Blockly block h2 in
  let '(generatedXml, h4) := Xml_domToPrettyText Blockly dom' h3 in
  let w' := fst (createXmlRoundTripTestCallback Blockly assert testCase this w) in
  last_event w' = Some (AssertEqual generatedXml (xml testCase)) /\
  filter is_assertion (events_since w w')
    = [AssertEqual generatedXml (xml testCase)] /\
  snd (createXmlRoundTripTestCallback Blockly assert testCase this w)
    = verdict (equal_holds assert generatedXml (xml testCase))
              generatedXml (xml testCase).
Proof.
  intros Hfalsy.
  pose proof (roundTrip_run testCase this w) as H; simpl in H.
  unfold js_or in H; rewrite Hfalsy in H.
  simpl.
  destruct (Xml_textToDom _ _ _) as [dom h1].
  destruct (Xml_domToBlock _ _ _ _ _) as [block h2].
  destruct (Xml_blockToDom _ _ _) as [dom' h3].
  destruct (Xml_domToPrettyText _ _ _) as [generatedXml h4].
  rewrite H; simpl. split; [|split].
  - unfold last_event; simpl.
    apply (last_app_snoc (log w) [_; _; _; _]).
  - erewrite events_since_app by (simpl; reflexivity). reflexivity.
  - reflexivity.
Qed.

(** C2.  The code-generation callback compares the generated code with
    [expectedCode] by [assert.equal] when [expectedCode] is a string and by
    [assert.match] otherwise: that comparison is the first assertion the
    callback makes, and the callback throws when it does not hold.  Since
    [==] on two strings is equality of strings, generated code that is a
    string passes the comparison with a string exactly when the two are the
    same string. *)
Theorem codegen_compares_code
    (generator : Generator Block Workspace Heap)
    (testCase : CodeGenerationTestCase Block Workspace Heap)
    (this : Context Workspace) (w : World Dom Block Workspace Heap) :
  (forall s t, equal_holds assert (VStr s) (VStr t) = String.eqb s t) ->
  exists w2 code innerOrder,
    generation generator testCase this w = (w2, inr (code, innerOrder)) /\
    let run := createCodeGenerationTestFn_ assert generator testCase this w in
    match expectedCode testCase with
    | VStr expected =>
        head (events_since w2 (fst run)) = Some (AssertEqual code (VStr expected)) /\
        (equal_holds assert code (VStr expected) = false ->
         snd run = inl (AssertionError code (VStr expected))) /\
        (snd run = inr tt -> equal_holds assert code (VStr expected) = true) /\
        (forall generated, code = VStr generated ->
           equal_holds assert code (VStr expected) = true <->
           generated = expected)
    | pattern =>
        head (events_since w2 (fst run)) = Some (AssertMatch code pattern) /\
        (match_holds assert code pattern = false ->
         snd run = inl (AssertionError code pattern)) /\
        (snd run = inr tt -> match_holds assert code pattern = true)
    end.
Proof.
  intros Hstrings.
  destruct (generation_returns generator testCase this w)
    as (w2 & code & innerOrder & Hgen).
  exists w2, code, innerOrder. split; [exact Hgen|].
  rewrite (codegen_run _ _ _ _ _ _ _ Hgen).
  unfold code_assertion, code_holds, verdict, events_since.
  destruct (expectedCode testCase) as [| | | |expected| |] eqn:Hexp; simpl;
    match goal with
    | |- context [equal_holds assert code ?e] =>
        destruct (equal_holds assert code e) eqn:Hholds
    | |- context [match_holds assert code ?e] =>
        destruct (match_holds assert code e)
    end;
    try destruct (checks_order testCase); simpl;
    rewrite ?drop_app_length;
    try (rewrite <- app_assoc, drop_app_length);
    repeat split; try reflexivity; try discriminate;
    try (destruct (equal_holds assert innerOrder _); discriminate);
    try (intros _; subst code; rewrite Hstrings in Hholds;
         apply String.eqb_eq, Hholds);
    try (intros ->; subst code; rewrite Hstrings, String.eqb_refl in Hholds;
         discriminate Hholds).
Qed.

(** C4.  When [useWorkspaceToCode] is set the callback computes the code of
    the whole workspace by the generator's [workspaceToCode] and never calls
    the generator's [init]; otherwise it calls [init] for the workspace and
    then [blockToCode] on the block that [createBlock] made.  Besides these
    calls the callback only makes assertions. *)
Theorem codegen_generator_calls
    (generator : Generator Block Workspace Heap)
    (testCase : CodeGenerationTestCase Block Workspace Heap)
    (this : Context Workspace) (w : World Dom Block Workspace Heap) :
  let ws := workspace this in
  let g := gen_name generator in
  let added :=
    events_since w
      (fst (createCodeGenerationTestFn_ assert generator testCase this w)) in
  let '(block, h1) := createBlock testCase ws (heap w) in
  if truthy (useWorkspaceToCode testCase) then
    let '(code, h2) := gen_workspaceToCode generator ws h1 in
    filter (fun e => negb (is_assertion e)) added
      = [CallCreateBlock ws; CallWorkspaceToCode g ws] /\
    filter is_generator_init added = [] /\
    exists w2,
      generation generator testCase this w = (w2, inr (code, VUndefined)) /\
      heap w2 = h2
  else
    let '(res, h3) := gen_blockToCode generator block (gen_init generator ws h1) in
    filter (fun e => negb (is_assertion e)) added
      = [CallCreateBlock ws; CallInit g ws; CallBlockToCode g block] /\
    exists w2,
      generation generator testCase this w
        = (w2, inr (if isArray res then (index res 0, index res 1)
                    else (res, VUndefined))) /\
      heap w2 = h3.
Proof.
  simpl.
  pose proof (generation_run generator testCase this w) as Hgen; simpl in Hgen.
  destruct (createBlock _ _ _) as [block h1].
  destruct (truthy (useWorkspaceToCode testCase)) eqn:Hws.
  - destruct (gen_workspaceToCode _ _ _) as [code h2].
    rewrite (codegen_run _ _ _ _ _ _ _ Hgen).
    assert (Horder : checks_order testCase = false)
      by (unfold checks_order; rewrite Hws; reflexivity).
    rewrite Horder.
    split; [|split; [|eexists; split; [exact Hgen|reflexivity]]];
      unfold code_assertion;
      destruct (code_holds assert testCase code);
      destruct (typeof_string _);
      (erewrite events_since_app;
       [|simpl; rewrite <- app_assoc; reflexivity]); reflexivity.
  - destruct (gen_blockToCode _ _ _) as [res h3].
    destruct (isArray res);
      rewrite (codegen_run _ _ _ _ _ _ _ Hgen);
      (split; [|eexists; split; [exact Hgen|reflexivity]]);
      unfold code_assertion;
      destruct (code_holds assert testCase _);
      try destruct (checks_order testCase);
      destruct (typeof_string _);
      (erewrite events_since_app;
       [|simpl; rewrite <- ?app_assoc; reflexivity]); reflexivity.
Qed.

(** C5.  In a case that does not use whole-workspace mode: when
    [blockToCode] returns a pair [[code, order]], the callback compares the
    code component with [expectedCode] and unpacks the order component as
    the inner order; when it returns something that is not an array, the
    callback compares that value and the inner order is [undefined]. *)
Theorem codegen_unpacks_pair
    (generator : Generator Block Workspace Heap)
    (testCase : CodeGenerationTestCase Block Workspace Heap)
    (this : Context Workspace) (w : World Dom Block Workspace Heap) :
  truthy (useWorkspaceToCode testCase) = false ->
  let ws := workspace this in
  let run := createCodeGenerationTestFn_ assert generator testCase this w in
  let '(block, h1) := createBlock testCase ws (heap w) in
  let '(res, h3) := gen_blockToCode generator block (gen_init generator ws h1) in
  exists w2 code innerOrder,
    generation generator testCase this w = (w2, inr (code, innerOrder)) /\
    head (events_since w2 (fst run))
      = Some (if typeof_string (expectedCode testCase)
              then AssertEqual code (expectedCode testCase)
              else AssertMatch code (expectedCode testCase)) /\
    (forall c o, res = VArr [c; o] -> code = c /\ innerOrder = o) /\
    (isArray res = true -> code = index res 0 /\ innerOrder = index res 1) /\
    (isArray res = false -> code = res /\ innerOrder = VUndefined).
Proof.
  intros Hws; simpl.
  pose proof (generation_run generator testCase this w) as Hgen; simpl in Hgen.
  destruct (createBlock _ _ _) as [block h1].
  rewrite Hws in Hgen.
  destruct (gen_blockToCode _ _ _) as [res h3].
  destruct (isArray res) eqn:Harr;
    (eexists _, _, _; split; [exact Hgen|]);
    rewrite (codegen_run _ _ _ _ _ _ _ Hgen);
    (split; [|split; [|split]]).
  - unfold code_assertion.
    destruct (code_holds assert testCase _);
      try destruct (checks_order testCase);
      destruct (typeof_string _);
      (erewrite events_since_app; [|simpl; rewrite <- ?app_assoc; reflexivity]);
      reflexivity.
  - intros c o ->. split; reflexivity.
  - intros _. split; reflexivity.
  - discriminate.
  - unfold code_assertion.
    destruct (code_holds assert testCase _);
      try destruct (checks_order testCase);
      destruct (typeof_string _);
      (erewrite events_since_app; [|simpl; rewrite <- ?app_assoc; reflexivity]);
      reflexivity.
  - intros c o ->. discriminate.
  - discriminate.
  - intros _. split; reflexivity.
Qed.

(** C6.  The callback asserts that the unpacked inner order equals
    [expectedInnerOrder] exactly when the case does not use whole-workspace
    mode and [expectedInnerOrder] is not [undefined].  In whole-workspace
    mode, or with [expectedInnerOrder] unset, the comparison of the code is
    the only assertion made and decides the test.  Otherwise the order
    assertion follows the comparison of the code (a chai assertion that
    fails throws, so the second assertion is reached once the first has
    held), and the test passes exactly when both hold. *)
Theorem codegen_checks_order
    (generator : Generator Block Workspace Heap)
    (testCase : CodeGenerationTestCase Block Workspace Heap)
    (this : Context Workspace) (w : World Dom Block Workspace Heap) :
  exists w2 code innerOrder,
    generation generator testCase this w = (w2, inr (code, innerOrder)) /\
    let run := createCodeGenerationTestFn_ assert generator testCase this w in
    let added := events_since w2 (fst run) in
    let expected := expectedInnerOrder testCase in
    let codeOk := code_holds assert testCase code in
    (truthy (useWorkspaceToCode testCase) = true \/ expected = VUndefined ->
       added = [code_assertion testCase code] /\
       snd run = verdict codeOk code (expectedCode testCase)) /\
    (truthy (useWorkspaceToCode testCase) = false /\ expected <> VUndefined ->
       (codeOk = true ->
          added = [code_assertion testCase code; AssertEqual innerOrder expected] /\
          snd run = verdict (equal_holds assert innerOrder expected)
                            innerOrder expected) /\
       (snd run = inr tt <->
          codeOk = true /\ equal_holds assert innerOrder expected = true)).
Proof.
  destruct (generation_returns generator testCase this w)
    as (w2 & code & innerOrder & Hgen).
  exists w2, code, innerOrder. split; [exact Hgen|].
  simpl. rewrite (codegen_run _ _ _ _ _ _ _ Hgen). split.
  - intros Hoff.
    assert (Horder : checks_order testCase = false).
    { unfold checks_order. destruct Hoff as [-> | ->]; [reflexivity|].
      apply andb_false_r. }
    rewrite Horder. unfold verdict.
    destruct (code_holds assert testCase code); simpl;
      (erewrite events_since_app; [|simpl; reflexivity]);
      split; reflexivity.
  - intros [Hws Hset].
    assert (Horder : checks_order testCase = true).
    { unfold checks_order. rewrite Hws.
      destruct (expectedInnerOrder testCase); try reflexivity.
      contradiction Hset; reflexivity. }
    rewrite Horder. unfold verdict. split.
    + intros ->; simpl.
      erewrite events_since_app; [|simpl; rewrite <- app_assoc; reflexivity].
      split; reflexivity.
    + destruct (code_holds assert testCase code); simpl.
      * destruct (equal_holds assert innerOrder _); simpl;
          split; try discriminate; intuition congruence.
      * split; try discriminate. intros [? _]; discriminate.
Qed.

End CallbackProperties.

(** ** Properties of the serialization suite *)

Section SuiteProperties.

Context {Dom Block Workspace Heap : Type}.
Context (Blockly : Toolkit Dom Block Workspace Heap) (assert : Chai).

Implicit Types (w : World Dom Block Workspace Heap) (e : gmap string Member).

Lemma has_TEST_ONLY_ext e e' :
  (forall k, is_Some (e' !! k) <-> is_Some (e !! k)) ->
  has_TEST_ONLY e' = has_TEST_ONLY e.
Proof.
  intros H. unfold has_TEST_ONLY.
  pose proof (H path_idGenerator) as H1.
  pose proof (H path_TEST_ONLY) as H2.
  destruct (e !! path_idGenerator), (e' !! path_idGenerator),
    (e !! path_TEST_ONLY), (e' !! path_TEST_ONLY);
    try reflexivity;
    repeat match goal with
      | H : _ <-> _ |- _ => destruct H
      | H : is_Some None |- _ => destruct H; discriminate
      | H : is_Some (Some _) -> is_Some None |- _ =>
          specialize (H (mk_is_Some _ _ eq_refl))
      end.
Qed.

Lemma is_Some_insert_present e k (m : Member) :
  is_Some (e !! k) ->
  forall k', is_Some (<[k := m]> e !! k') <-> is_Some (e !! k').
Proof.
  intros Hk k'. destruct (decide (k = k')) as [<- | Hne].
  - rewrite lookup_insert_eq. split; [intros _; exact Hk | eauto].
  - rewrite lookup_insert_ne by exact Hne. reflexivity.
Qed.

Lemma restore_fakes_present (fakes : list Fake) e :
  (forall fk, elem_of fk fakes -> is_Some (e !! fake_path fk)) ->
  forall k, is_Some (restore_fakes fakes e !! k) <-> is_Some (e !! k).
Proof.
  induction fakes as [|fk fakes IH]; intros Hin k; simpl; [reflexivity|].
  assert (IH' : forall k, is_Some (restore_fakes fakes e !! k) <-> is_Some (e !! k)).
  { apply IH. intros fk' Hfk'. apply Hin. right. exact Hfk'. }
  rewrite is_Some_insert_present; [apply IH'|].
  apply IH'. apply Hin. left.
Qed.

Lemma restore_fakes_other (fakes : list Fake) e k :
  ~ elem_of k (map fake_path fakes) ->
  restore_fakes fakes e !! k = e !! k.
Proof.
  induction fakes as [|fk fakes IH]; simpl; intros Hk; [reflexivity|].
  rewrite not_elem_of_cons in Hk. destruct Hk as [Hne Hk].
  rewrite lookup_insert_ne by congruence. apply IH, Hk.
Qed.

Lemma restore_fakes_original (fakes : list Fake) e fk :
  NoDup (map fake_path fakes) ->
  elem_of fk fakes ->
  restore_fakes fakes e !! fake_path fk = Some (Function (fake_original fk)).
Proof.
  induction fakes as [|fk' fakes IH]; simpl; intros Hnd Hin.
  - inversion Hin.
  - apply NoDup_cons in Hnd as [Hfresh Hnd].
    apply elem_of_cons in Hin as [-> | Hin].
    + apply lookup_insert_eq.
    + rewrite lookup_insert_ne; [apply IH; assumption|].
      intros Heq. apply Hfresh. rewrite Heq.
      apply list_elem_of_fmap. exists fk. split; [reflexivity|assumption].
Qed.

Lemma idgen_lookup w f :
  idgen w = Some f -> env w !! genUid_path (env w) = Some (Function f).
Proof.
  unfold idgen. destruct (env w !! genUid_path (env w)) as [[|f']|];
    congruence.
Qed.

Lemma genUid_path_ext e e' :
  (forall k, is_Some (e' !! k) <-> is_Some (e !! k)) ->
  genUid_path e' = genUid_path e.
Proof.
  intros H. unfold genUid_path. rewrite (has_TEST_ONLY_ext _ _ H). reflexivity.
Qed.

(** The setup hook, where the unique-ID function is a native one. *)
Lemma roundTrip_setup_run (this : Context Workspace) w name :
  idgen w = Some (Native name) ->
  roundTrip_setup this w = (stub_installed name w, inr tt).
Proof.
  intros Hid. apply idgen_lookup in Hid.
  unfold roundTrip_setup, stub_installed, genUid_path in *.
  destruct (has_TEST_ONLY (env w));
    unfold bind, sinon_stub, returns; rewrite Hid; simpl;
    unfold emit, set_env, set_sandbox; simpl;
    rewrite insert_insert_eq, <- app_assoc; reflexivity.
Qed.

(** The teardown hook. *)
Lemma roundTrip_teardown_run (this : Context Workspace) w :
  roundTrip_teardown this w = (stubs_restored w, inr tt).
Proof. reflexivity. Qed.

Lemma stub_installed_idgen w name :
  idgen w = Some (Native name) ->
  idgen (stub_installed name w) = Some (Stub (VStr "1")).
Proof.
  intros Hid. apply idgen_lookup in Hid.
  unfold idgen, stub_installed; simpl.
  rewrite (genUid_path_ext (env w)).
  - rewrite lookup_insert_eq. reflexivity.
  - apply is_Some_insert_present. rewrite Hid. eauto.
Qed.

Lemma native_not_faked w name :
  sandbox_wf w -> idgen w = Some (Native name) ->
  ~ elem_of (genUid_path (env w)) (map fake_path (sandbox w)).
Proof.
  intros [_ Hstub] Hid Hin. apply idgen_lookup in Hid.
  apply list_elem_of_fmap in Hin as (fk & Hpath & Hfk).
  destruct (Hstub fk Hfk) as [v Hv]. congruence.
Qed.

Lemma stub_installed_wf w name :
  sandbox_wf w -> idgen w = Some (Native name) ->
  sandbox_wf (stub_installed name w).
Proof.
  intros Hwf Hid. pose proof (native_not_faked w name Hwf Hid) as Hfresh.
  destruct Hwf as [Hnd Hstub]. split; simpl.
  - apply NoDup_cons. split; assumption.
  - intros fk Hfk. apply elem_of_cons in Hfk as [-> | Hfk]; simpl.
    + rewrite lookup_insert_eq. eauto.
    + destruct (Hstub fk Hfk) as [v Hv].
      destruct (decide (genUid_path (env w) = fake_path fk)) as [Heq | Hne].
      * rewrite Heq, lookup_insert_eq. eauto.
      * rewrite lookup_insert_ne by exact Hne. eauto.
Qed.

(** Restoring a well-formed sandbox keeps every property where it is. *)
Lemma stubs_restored_present w :
  sandbox_wf w ->
  forall k, is_Some (env (stubs_restored w) !! k) <-> is_Some (env w !! k).
Proof.
  intros [_ Hstub]. simpl. apply restore_fakes_present.
  intros fk Hfk. destruct (Hstub fk Hfk) as [v ->]. eauto.
Qed.

(** Teardown after setup puts the native unique-ID function back, whatever
    ran in between, as long as it left the stubs alone. *)
Lemma stubs_restored_idgen w w' name :
  sandbox_wf w -> idgen w = Some (Native name) ->
  env w' = env (stub_installed name w) ->
  sandbox w' = sandbox (stub_installed name w) ->
  idgen (stubs_restored w') = Some (Native name) /\
  sandbox_wf (stubs_restored w').
Proof.
  intros Hwf Hid Henv Hsb.
  pose proof (stub_installed_wf w name Hwf Hid) as Hwf1.
  assert (Hwf' : sandbox_wf w').
  { unfold sandbox_wf. rewrite Henv, Hsb. exact Hwf1. }
  split.
  - unfold idgen.
    rewrite (genUid_path_ext (env w)).
    + simpl. rewrite Hsb, Henv; simpl. rewrite lookup_insert_eq. reflexivity.
    + intros k. rewrite (stubs_restored_present w' Hwf' k), Henv; simpl.
      apply is_Some_insert_present.
      rewrite (idgen_lookup _ _ Hid). eauto.
  - split; simpl; [constructor|]. intros fk Hfk. inversion Hfk.
Qed.

Lemma tests_of_runTestCases {TC : Type} (testCases : list TC)
    (make : TC -> Callback Dom Block Workspace Heap) :
  tests_of (runTestCases testCases make) = map make testCases /\
  setups_of (runTestCases testCases make) = [] /\
  teardowns_of (runTestCases testCases make) = [] /\
  forall run w, run_children run (runTestCases testCases make) w = ([], w, None).
Proof.
  induction testCases as [|tc tcs (IH1 & IH2 & IH3 & IH4)]; simpl.
  - repeat split; reflexivity.
  - unfold tests_of, setups_of, teardowns_of in *; simpl.
    rewrite IH1, IH2, IH3. repeat split; try reflexivity. exact IH4.
Qed.

Lemma run_suite_tests_only (path : list string)
    (ups downs : list (list (Callback Dom Block Workspace Heap)))
    (this : Context Workspace) (title : string)
    (body : list (Decl Dom Block Workspace Heap))
    (runs : list (TestRun Dom Block Workspace Heap)) w w1 :
  (forall run w, run_children run body w = ([], w, None)) ->
  run_tests path (ups ++ [setups_of body]) (downs ++ [teardowns_of body])
            this (tests_of body) w = (runs, w1, None) ->
  run_suite path ups downs this (DeclSuite title body) w = (runs, w1, None).
Proof.
  intros Hflat Htests. simpl. rewrite Htests, Hflat, app_nil_r. reflexivity.
Qed.

Lemma xmlToBlock_tests_run (name : string) (this : Context Workspace)
    (testCases : list (SerializationTestCase Block Heap)) w :
  at_rest name w ->
  exists runs w',
    run_tests ["Serialization"; "xmlToBlock"] [[]; []; []] [[]; []; []] this
      (map (createXmlToBlockTestCallback Blockly) testCases) w
      = (runs, w', None) /\
    Forall2 (fun testCase r =>
               at_rest name (run_before r) /\
               xmlToBlock_case_run Blockly testCase this r)
            testCases runs /\
    at_rest name w'.
Proof.
  revert w. induction testCases as [|tc tcs IH]; intros w Hrest; simpl.
  - exists [], w. repeat split; try constructor; apply Hrest.
  - unfold run_test; simpl.
    pose proof (xmlToBlock_keeps_stubs Blockly tc this w) as [Henv Hsb].
    destruct (createXmlToBlockTestCallback Blockly tc this w) as [w2 r] eqn:Hrun.
    simpl in *.
    assert (Hrest2 : at_rest name w2).
    { destruct Hrest as [Hwf Hid]. unfold at_rest, sandbox_wf, idgen.
      rewrite Henv, Hsb. split; [exact Hwf | exact Hid]. }
    destruct (IH w2 Hrest2) as (runs & w' & -> & Hall & Hrest').
    eexists _, w'. split; [reflexivity|]. split; [|exact Hrest'].
    constructor; [|exact Hall].
    split; [exact Hrest|].
    unfold xmlToBlock_case_run; simpl. rewrite Hrun. repeat split; reflexivity.
Qed.

Lemma roundTrip_tests_run (name : string) (this : Context Workspace)
    (testCases : list (SerializationTestCase Block Heap)) w :
  at_rest name w ->
  exists runs w',
    run_tests ["Serialization"; "xml round-trip"]
      [[]; []; [roundTrip_setup]] [[]; []; [roundTrip_teardown]] this
      (map (createXmlRoundTripTestCallback Blockly assert) testCases) w
      = (runs, w', None) /\
    Forall2 (fun testCase r =>
               at_rest name (run_before r) /\
               roundTrip_case_run Blockly assert name testCase this r)
            testCases runs /\
    at_rest name w'.
Proof.
  revert w. induction testCases as [|tc tcs IH]; intros w Hrest; simpl.
  - exists [], w. repeat split; try constructor; apply Hrest.
  - unfold run_test; simpl.
    destruct Hrest as [Hwf Hid].
    rewrite (roundTrip_setup_run this w name Hid).
    pose proof (roundTrip_keeps_stubs Blockly assert tc this
                  (stub_installed name w)) as [Henv Hsb].
    destruct (createXmlRoundTripTestCallback Blockly assert tc this
                (stub_installed name w)) as [w2 r] eqn:Hrun.
    simpl fst in *.
    pose proof (stubs_restored_idgen w w2 name Hwf Hid Henv Hsb) as [Hid3 Hwf3].
    destruct (IH (stubs_restored w2) (conj Hwf3 Hid3))
      as (runs & w' & Hruns & Hall & Hrest').
    simpl. change (emit SinonRestore
                     (set_sandbox [] (set_env (restore_fakes (sandbox w2) (env w2)) w2)))
      with (stubs_restored w2).
    rewrite Hruns.
    eexists _, w'. split; [reflexivity|]. split; [|exact Hrest'].
    constructor; [|exact Hall].
    split; [split; assumption|].
    unfold roundTrip_case_run; simpl. rewrite Hrun. repeat split; reflexivity.
Qed.

(** The whole suite: the xmlToBlock tests of the cases, then their
    round-trip tests, each group in the order of the cases. *)
Lemma serialization_suite_run (name : string) (this : Context Workspace)
    (testCases : list (SerializationTestCase Block Heap)) w :
  at_rest name w ->
  exists runs1 runs2 w',
    mocha_run (runSerializationTestSuite Blockly assert testCases) this w
      = (runs1 ++ runs2, w') /\
    Forall2 (fun testCase r =>
               at_rest name (run_before r) /\
               xmlToBlock_case_run Blockly testCase this r)
            testCases runs1 /\
    Forall2 (fun testCase r =>
               at_rest name (run_before r) /\
               roundTrip_case_run Blockly assert name testCase this r)
            testCases runs2 /\
    at_rest name w'.
Proof.
  intros Hrest.
  destruct (xmlToBlock_tests_run name this testCases w Hrest)
    as (runs1 & w1 & Hrun1 & Hall1 & Hrest1).
  destruct (roundTrip_tests_run name this testCases w1 Hrest1)
    as (runs2 & w2 & Hrun2 & Hall2 & Hrest2).
  exists runs1, runs2, w2. split; [|auto].
  pose (body1 := runTestCases testCases (createXmlToBlockTestCallback Blockly)).
  pose (body2 :=
          DeclSetup roundTrip_setup
          :: DeclTeardown roundTrip_teardown
          :: runTestCases testCases
               (createXmlRoundTripTestCallback Blockly assert)).
  destruct (tests_of_runTestCases testCases (createXmlToBlockTestCallback Blockly))
    as (Ht1 & Hs1 & Hd1 & Hc1).
  fold body1 in Ht1, Hs1, Hd1, Hc1.
  assert (tests_of body2
          = map (createXmlRoundTripTestCallback Blockly assert) testCases /\
          setups_of body2 = [roundTrip_setup] /\
          teardowns_of body2 = [roundTrip_teardown] /\
          forall run w, run_children run body2 w = ([], w, None))
    as (Ht2 & Hs2 & Hd2 & Hc2).
  { destruct (tests_of_runTestCases testCases
                (createXmlRoundTripTestCallback Blockly assert))
      as (Ht & Hs & Hd & Hc).
    unfold body2.
    repeat split; [rewrite <- Ht | rewrite <- Hs | rewrite <- Hd | intros; apply Hc];
      reflexivity. }
  change (mocha_run (runSerializationTestSuite Blockly assert testCases) this w)
    with (fst (run_suite [] [] [] this
                 (DeclSuite ""
                    [DeclSuite "Serialization"
                       [DeclSuite "xmlToBlock" body1;
                        DeclSuite "xml round-trip" body2]]) w)).
  clearbody body1 body2.
  simpl.
  rewrite Ht1, Hs1, Hd1, Hrun1, Hc1.
  rewrite Ht2, Hs2, Hd2, Hrun2, Hc2.
  simpl. rewrite !app_nil_r. reflexivity.
Qed.

(** While the stub is in place every call of the unique-ID function
    returns what the stub returns, and changes nothing. *)
Lemma genUids_stubbed w v (k : nat) :
  idgen w = Some (Stub v) ->
  genUids Blockly k w = (w, inr (replicate k v)).
Proof.
  intros Hid. induction k as [|k IH]; simpl; [reflexivity|].
  unfold bind at 1. unfold genUid at 1. rewrite Hid.
  unfold bind. rewrite IH. reflexivity.
Qed.

Lemma idgen_same_env w w' : env w' = env w -> idgen w' = idgen w.
Proof. unfold idgen. intros ->. reflexivity. Qed.

(** C3.  Run from a world where the unique-ID function is the toolkit's
    own, the serialization suite runs every case once as an xmlToBlock test
    and once as a round-trip test.  Before each round-trip case the setup
    hook replaces the unique-ID function by a stub that returns ["1"]; the
    stub is in effect when the case is entered and when it is left, so every
    unique ID generated during the case is ["1"]; after the case the
    teardown hook puts the original back.  During the xmlToBlock cases, and
    between and after the round-trip cases, the original is in effect. *)
Theorem roundTrip_cases_run_with_stubbed_genUid
    (name : string) (this : Context Workspace)
    (testCases : list (SerializationTestCase Block Heap))
    (w : World Dom Block Workspace Heap) :
  sandbox_wf w ->
  idgen w = Some (Native name) ->
  exists runs1 runs2 w',
    mocha_run (runSerializationTestSuite Blockly assert testCases) this w
      = (runs1 ++ runs2, w') /\
    Forall2 (fun testCase r =>
               run_path r = ["Serialization"; "xmlToBlock"] /\
               run_leave r
                 = fst (createXmlToBlockTestCallback Blockly testCase this
                          (run_entry r)) /\
               idgen (run_before r) = Some (Native name) /\
               idgen (run_entry r) = Some (Native name) /\
               idgen (run_leave r) = Some (Native name) /\
               idgen (run_after r) = Some (Native name))
            testCases runs1 /\
    Forall2 (fun testCase r =>
               let p := genUid_path (env (run_before r)) in
               run_path r = ["Serialization"; "xml round-trip"] /\
               idgen (run_before r) = Some (Native name) /\
               events_since (run_before r) (run_entry r)
                 = [SinonStub p; StubReturns p (VStr "1")] /\
               idgen (run_entry r) = Some (Stub (VStr "1")) /\
               run_leave r
                 = fst (createXmlRoundTripTestCallback Blockly assert testCase
                          this (run_entry r)) /\
               idgen (run_leave r) = Some (Stub (VStr "1")) /\
               (forall k,
                  genUids Blockly k (run_entry r)
                    = (run_entry r, inr (replicate k (VStr "1"))) /\
                  genUids Blockly k (run_leave r)
                    = (run_leave r, inr (replicate k (VStr "1")))) /\
               (exists dom,
                  events_since (run_entry r) (run_leave r) !! 1%nat
                    = Some (CallDomToBlock (Some (Stub (VStr "1"))) dom
                              (workspace this))) /\
               events_since (run_leave r) (run_after r) = [SinonRestore] /\
               idgen (run_after r) = Some (Native name))
            testCases runs2 /\
    idgen w' = Some (Native name).
Proof.
  intros Hwf Hid.
  destruct (serialization_suite_run name this testCases w (conj Hwf Hid))
    as (runs1 & runs2 & w' & Hrun & Hall1 & Hall2 & Hrest').
  exists runs1, runs2, w'. split; [exact Hrun|].
  split; [|split; [|apply Hrest']].
  - eapply Forall2_impl; [exact Hall1|]. clear.
    intros tc r [[_ Hid] (Hpath & Hentry & Hleave & Hafter & _)].
    pose proof (xmlToBlock_keeps_stubs Blockly tc this (run_before r))
      as [Henv _].
    assert (Hid' : idgen (run_leave r) = Some (Native name)).
    { rewrite Hleave, (idgen_same_env _ _ Henv). exact Hid. }
    rewrite Hentry.
    repeat split; try assumption.
    rewrite Hafter, <- Hleave. exact Hid'.
  - eapply Forall2_impl; [exact Hall2|]. clear.
    intros tc r [[Hwf Hid] (Hpath & Hentry & Hleave & Hafter & _)].
    pose proof (roundTrip_keeps_stubs Blockly assert tc this (run_entry r))
      as [Henv Hsb].
    rewrite <- Hleave in Henv, Hsb.
    pose proof (stub_installed_idgen _ _ Hid) as Hid1.
    rewrite <- Hentry in Hid1.
    assert (Hid2 : idgen (run_leave r) = Some (Stub (VStr "1"))).
    { rewrite (idgen_same_env _ _ Henv). exact Hid1. }
    rewrite Hentry in Henv, Hsb.
    destruct (stubs_restored_idgen _ _ _ Hwf Hid Henv Hsb) as [Hid3 _].
    simpl. repeat split; try assumption.
    + rewrite Hentry. apply events_since_app. reflexivity.
    + apply genUids_stubbed, Hid1.
    + apply genUids_stubbed, Hid2.
    + pose proof (roundTrip_run Blockly assert tc this (run_entry r)) as Hsteps.
      simpl in Hsteps.
      destruct (Xml_textToDom _ _ _) as [dom h1].
      destruct (Xml_domToBlock _ _ _ _ _) as [block h2].
      destruct (Xml_blockToDom _ _ _) as [dom' h3].
      destruct (Xml_domToPrettyText _ _ _) as [generatedXml h4].
      exists dom. rewrite Hleave, Hsteps; simpl.
      erewrite events_since_app; [|simpl; reflexivity].
      rewrite Hid1. reflexivity.
    + rewrite Hafter. apply events_since_app. reflexivity.
    + rewrite Hafter. exact Hid3.
Qed.

(** C10, as amended.  The teardown run after each round-trip case is
    [sinon.restore()]: it restores every fake sinon's default sandbox holds
    when the case ends, which are the stub of the unique-ID function
    installed in setup and whatever was stubbed through that sandbox
    before, each to its original.  Afterwards the sandbox is empty and the
    unique-ID function is the original again: no stub installed by this
    file remains. *)
Theorem roundTrip_teardown_restores_every_stub
    (name : string) (this : Context Workspace)
    (testCases : list (SerializationTestCase Block Heap))
    (w : World Dom Block Workspace Heap) :
  sandbox_wf w ->
  idgen w = Some (Native name) ->
  exists runs1 runs2 w',
    mocha_run (runSerializationTestSuite Blockly assert testCases) this w
      = (runs1 ++ runs2, w') /\
    length runs1 = length testCases /\
    Forall2 (fun testCase r =>
               let p := genUid_path (env (run_before r)) in
               run_path r = ["Serialization"; "xml round-trip"] /\
               sandbox (run_leave r)
                 = MkFake p (Native name) :: sandbox (run_before r) /\
               events_since (run_leave r) (run_after r) = [SinonRestore] /\
               (forall fk, elem_of fk (sandbox (run_leave r)) ->
                  env (run_after r) !! fake_path fk
                    = Some (Function (fake_original fk))) /\
               sandbox (run_after r) = [] /\
               env (run_after r) !! p = Some (Function (Native name)) /\
               idgen (run_after r) = Some (Native name))
            testCases runs2.
Proof.
  intros Hwf Hid.
  destruct (serialization_suite_run name this testCases w (conj Hwf Hid))
    as (runs1 & runs2 & w' & Hrun & Hall1 & Hall2 & Hrest').
  exists runs1, runs2, w'. split; [exact Hrun|].
  split; [symmetry; eapply Forall2_length, Hall1|].
  eapply Forall2_impl; [exact Hall2|]. clear.
  intros tc r [[Hwf Hid] (Hpath & Hentry & Hleave & Hafter & _)].
  pose proof (roundTrip_keeps_stubs Blockly assert tc this (run_entry r))
    as [Henv Hsb].
  rewrite <- Hleave in Henv, Hsb. rewrite Hentry in Henv, Hsb.
  destruct (stubs_restored_idgen _ _ _ Hwf Hid Henv Hsb) as [Hid3 _].
  pose proof (stub_installed_wf _ _ Hwf Hid) as [Hnd _].
  assert (Horig : forall fk, elem_of fk (sandbox (run_leave r)) ->
            env (run_after r) !! fake_path fk
              = Some (Function (fake_original fk))).
  { intros fk Hfk. rewrite Hafter; simpl.
    apply restore_fakes_original; [rewrite Hsb; exact Hnd | exact Hfk]. }
  simpl. repeat split; try assumption.
  - rewrite Hafter. apply events_since_app. reflexivity.
  - rewrite Hafter. reflexivity.
  - apply (Horig (MkFake _ (Native name))). rewrite Hsb. left.
  - rewrite Hafter. exact Hid3.
Qed.

End SuiteProperties.

(** ** The helpers on the sample toolkit *)

Section SampleRuns.

Import Sample.

Lemma sample_world_wf : sandbox_wf world.
Proof. split; [constructor|]. intros fk Hfk. inversion Hfk. Qed.

Lemma sample_busy_world_wf : sandbox_wf busy_world.
Proof.
  split.
  - apply NoDup_singleton.
  - intros fk Hfk. apply list_elem_of_singleton in Hfk as ->.
    exists VUndefined. vm_compute. reflexivity.
Qed.

(** A stub that was active before the suite stays through the xmlToBlock
    tests and is restored, with the stub of the unique-ID function, by the
    teardown of the first round trip. *)
Example sample_busy_suite_stubs :
  map (fun r => (map fake_path (sandbox (run_leave r)),
                 map fake_path (sandbox (run_after r)),
                 env (run_after r) !! "window.alert"))
      (fst (mocha_run (runSerializationTestSuite blockly chai [plain; emptyExpected])
              this busy_world))
  = [(["window.alert"], ["window.alert"], Some (Function (Stub VUndefined)));
     (["window.alert"], ["window.alert"], Some (Function (Stub VUndefined)));
     ([path_TEST_ONLY_genUid; "window.alert"], [],
      Some (Function (Native "alert")));
     ([path_TEST_ONLY_genUid], [], Some (Function (Native "alert")))].
Proof. vm_compute. reflexivity. Qed.

(** On the older toolkit the setup hook stubs [Blockly.utils.genUid]. *)
Example sample_legacy_suite_idgen :
  map (fun r => (idgen (run_entry r), idgen (run_after r),
                 events_since (run_before r) (run_entry r)))
      (fst (mocha_run (runSerializationTestSuite blockly chai [plain])
              this legacy_world))
  = [(Some (Native "uid"), Some (Native "uid"), []);
     (Some (Stub (VStr "1")), Some (Native "uid"),
      [SinonStub path_utils_genUid; StubReturns path_utils_genUid (VStr "1")])].
Proof. vm_compute. reflexivity. Qed.

(** The whole suite on two cases: four tests, all passing. *)
Example sample_suite_results :
  map run_result
      (fst (mocha_run (runSerializationTestSuite blockly chai [plain; emptyExpected])
              this world))
  = [Passed; Passed; Passed; Passed].
Proof. vm_compute. reflexivity. Qed.

Example sample_roundTrip_log :
  events_since world
    (fst (createXmlRoundTripTestCallback blockly chai plain this world))
  = [CallTextToDom (VStr "<block></block>");
     CallDomToBlock (Some (Native "uid")) "<block></block>" tt;
     CallBlockToDom ("<block></block>", VStr "uid");
     CallDomToPrettyText "<block></block>";
     AssertEqual (VStr "<block></block>") (VStr "<block></block>")].
Proof. vm_compute. reflexivity. Qed.

Example sample_codegen_log :
  createCodeGenerationTestFn_ chai gen literal this world
  = (MkWorld 0 toolkit_env []
       [CallCreateBlock tt;
        CallInit "JavaScript" tt;
        CallBlockToCode "JavaScript" ("5", VStr "b");
        AssertEqual (VStr "5") (VStr "5");
        AssertEqual (VNum 5) (VNum 5)],
     inr tt).
Proof. vm_compute. reflexivity. Qed.

Example sample_codegen_workspace_log :
  events_since world
    (fst (createCodeGenerationTestFn_ chai gen whole this world))
  = [CallCreateBlock tt;
     CallWorkspaceToCode "JavaScript" tt;
     AssertMatch (VStr "workspace") (VRegExp "workspace")].
Proof. vm_compute. reflexivity. Qed.

(** C1 as the specification words it fails on a case whose [expectedXml]
    is the empty string: the field is set, yet the callback compares the
    generated text with [xml], and the test passes although the generated
    text is not the empty string. *)
Lemma roundTrip_empty_expectedXml_not_compared :
  expectedXml emptyExpected = VStr "" /\
  last_event (fst (createXmlRoundTripTestCallback blockly chai emptyExpected
                     this world))
    = Some (AssertEqual (VStr "<block></block>") (VStr "<block></block>")) /\
  snd (createXmlRoundTripTestCallback blockly chai emptyExpected this world)
    = inr tt /\
  ~ roundTrip_compares_when_set blockly chai emptyExpected this world.
Proof.
  split; [reflexivity|]. split; [vm_compute; reflexivity|].
  split; [vm_compute; reflexivity|].
  intros [generatedXml H]. vm_compute in H. discriminate H.
Qed.

(** C9 on the case whose [expectedXml] is the empty string. *)
Lemma roundTrip_falsy_expectedXml_witness :
  truthy (expectedXml emptyExpected) = false /\
  last_event (fst (createXmlRoundTripTestCallback blockly chai emptyExpected
                     this world))
    = Some (AssertEqual (VStr "<block></block>") (xml emptyExpected)).
Proof.
  split; [reflexivity|].
  exact (proj1 (roundTrip_falsy_expectedXml_compares_xml
                  blockly chai emptyExpected this world eq_refl)).
Defined.

(** C2 on a case whose expected code is a string. *)
Lemma codegen_compares_code_witness :
  (forall s t, equal_holds chai (VStr s) (VStr t) = String.eqb s t) /\
  exists w2 innerOrder,
    generation gen literal this world = (w2, inr (VStr "5", innerOrder)) /\
    head (events_since w2
            (fst (createCodeGenerationTestFn_ chai gen literal this world)))
      = Some (AssertEqual (VStr "5") (VStr "5")).
Proof.
  split; [reflexivity|].
  destruct (codegen_compares_code chai gen literal this world
              (fun s t => eq_refl))
    as (w2 & code & innerOrder & Hgen & Hhead & _).
  assert (Hcode : code = VStr "5").
  { vm_compute in Hgen. congruence. }
  subst code. exists w2, innerOrder. split; [exact Hgen | exact Hhead].
Defined.

(** C5 on a generator that returns a pair. *)
Lemma codegen_unpacks_pair_witness :
  truthy (useWorkspaceToCode literal) = false /\
  exists w2,
    generation gen literal this world = (w2, inr (VStr "5", VNum 5)).
Proof.
  split; [reflexivity|].
  pose proof (codegen_unpacks_pair chai gen literal this world eq_refl) as H.
  simpl in H. destruct H as (w2 & code & innerOrder & Hgen & _ & Hpair & _ & _).
  destruct (Hpair _ _ eq_refl) as [-> ->].
  exists w2. exact Hgen.
Defined.

(** C3 on two cases. *)
Lemma roundTrip_stubbed_genUid_witness :
  sandbox_wf world /\
  idgen world = Some (Native "uid") /\
  exists runs1 runs2 w',
    mocha_run (runSerializationTestSuite blockly chai [plain; emptyExpected])
              this world
      = (runs1 ++ runs2, w') /\
    length runs2 = 2%nat /\
    Forall (fun r => idgen (run_entry r) = Some (Stub (VStr "1")) /\
                     idgen (run_after r) = Some (Native "uid")) runs2 /\
    idgen w' = Some (Native "uid").
Proof.
  split; [exact sample_world_wf|]. split; [reflexivity|].
  destruct (roundTrip_cases_run_with_stubbed_genUid blockly chai "uid" this
              [plain; emptyExpected] world sample_world_wf eq_refl)
    as (runs1 & runs2 & w' & Hrun & _ & Hall & Hend).
  exists runs1, runs2, w'. split; [exact Hrun|].
  split; [symmetry; exact (Forall2_length _ _ _ Hall)|].
  split; [|exact Hend].
  clear -Hall. induction Hall as [|tc r tcs rs Hr _ IH]; constructor.
  - split; [apply Hr | apply Hr].
  - exact IH.
Defined.

(** C10 on two cases, in a world where another stub is already active. *)
Lemma roundTrip_teardown_witness :
  sandbox_wf busy_world /\
  idgen busy_world = Some (Native "uid") /\
  exists runs1 runs2 w',
    mocha_run (runSerializationTestSuite blockly chai [plain; emptyExpected])
              this busy_world
      = (runs1 ++ runs2, w') /\
    length runs2 = 2%nat /\
    Forall (fun r => sandbox (run_after r) = [] /\
                     idgen (run_after r) = Some (Native "uid")) runs2.
Proof.
  split; [exact sample_busy_world_wf|]. split; [reflexivity|].
  destruct (roundTrip_teardown_restores_every_stub blockly chai "uid" this
              [plain; emptyExpected] busy_world sample_busy_world_wf eq_refl)
    as (runs1 & runs2 & w' & Hrun & _ & Hall).
  exists runs1, runs2, w'. split; [exact Hrun|].
  split; [symmetry; exact (Forall2_length _ _ _ Hall)|].
  clear -Hall. induction Hall as [|tc r tcs rs Hr _ IH]; constructor.
  - split; apply Hr.
  - exact IH.
Defined.

End SampleRuns.

(** ** Further properties of the callbacks and the hooks *)

Section FurtherProperties.

Context {Dom Block Workspace Heap : Type}.
Context (Blockly : Toolkit Dom Block Workspace Heap) (assert : Chai).

Implicit Types (w : World Dom Block Workspace Heap) (e : gmap string Member).

(** The setup hook throws where the property it is about to stub is
    missing or holds a stub already, and changes nothing there. *)
Lemma roundTrip_setup_fails (this : Context Workspace) w :
  env w !! genUid_path (env w) = None \/ (exists v, idgen w = Some (Stub v)) ->
  exists msg, roundTrip_setup this w = (w, inl (TypeError msg)).
Proof.
  unfold idgen, genUid_path, roundTrip_setup.
  destruct (has_TEST_ONLY (env w));
    unfold bind, sinon_stub, throw;
    destruct (env w !! _) as [[|[name|v]]|]; eauto;
    intros [Hnone | [v' Hstub]]; discriminate.
Qed.



(** X4.  Only the truthiness of [useWorkspaceToCode] matters: two cases
    that differ in that field alone, by values that are both truthy or both
    falsy (such as [false] and a field left out), give the same run. *)
Theorem codegen_useWorkspaceToCode_truthiness
    (generator : Generator Block Workspace Heap)
    (testCase testCase' : CodeGenerationTestCase Block Workspace Heap)
    (this : Context Workspace) w :
  truthy (useWorkspaceToCode testCase') = truthy (useWorkspaceToCode testCase) ->
  expectedCode testCase' = expectedCode testCase ->
  expectedInnerOrder testCase' = expectedInnerOrder testCase ->
  createBlock testCase' = createBlock testCase ->
  createCodeGenerationTestFn_ assert generator testCase' this w
  = createCodeGenerationTestFn_ assert generator testCase this w.
Proof.
  intros Hws Hcode Horder Hblock.
  unfold createCodeGenerationTestFn_, generateCode.
  rewrite Hws, Hcode, Horder, Hblock. reflexivity.
Qed.

(** X5.  In whole-workspace mode the run depends neither on
    [expectedInnerOrder] nor on the generator's [init] and [blockToCode]:
    cases that agree on the other fields, with generators that agree on
    [workspaceToCode], give the same run. *)
Theorem codegen_workspace_mode_ignores_order
    (generator generator' : Generator Block Workspace Heap)
    (testCase testCase' : CodeGenerationTestCase Block Workspace Heap)
    (this : Context Workspace) w :
  truthy (useWorkspaceToCode testCase) = true ->
  truthy (useWorkspaceToCode testCase') = true ->
  expectedCode testCase' = expectedCode testCase ->
  createBlock testCase' = createBlock testCase ->
  gen_name generator' = gen_name generator ->
  gen_workspaceToCode generator' = gen_workspaceToCode generator ->
  createCodeGenerationTestFn_ assert generator' testCase' this w
  = createCodeGenerationTestFn_ assert generator testCase this w.
Proof.
  intros Hws Hws' Hcode Hblock Hname Hgen.
  unfold createCodeGenerationTestFn_, generateCode, workspaceToCode.
  rewrite Hws, Hws', Hcode, Hblock, Hname, Hgen. reflexivity.
Qed.

(** X6.  What a passing round trip means: when the text the serializer
    gives and the text compared with are both strings, and [==] on strings
    is equality of strings, the callback returns only if the two are the
    same string.  With [expectedXml] left out, a passing case has
    reproduced its [xml] text exactly. *)
Theorem roundTrip_pass_means_same_text
    (testCase : SerializationTestCase Block Heap)
    (this : Context Workspace) w (expected : string) :
  (forall s t, equal_holds assert (VStr s) (VStr t) = String.eqb s t) ->
  js_or (expectedXml testCase) (xml testCase) = VStr expected ->
  snd (createXmlRoundTripTestCallback Blockly assert testCase this w) = inr tt ->
  let '(dom, h1) := Xml_textToDom Blockly (xml testCase) (heap w) in
  let '(block, h2) := Xml_domToBlock Blockly (idgen w) dom (workspace this) h1 in
  let '(dom', h3) := Xml_blockToDom Blockly block h2 in
  let '(generatedXml, h4) := Xml_domToPrettyText Blockly dom' h3 in
  forall generated, generatedXml = VStr generated ->
    generated = expected /\
    (expectedXml testCase = VUndefined -> xml testCase = VStr generated).
Proof.
  intros Hstrings Hexpected Hpass.
  pose proof (roundTrip_run Blockly assert testCase this w) as Hrun.
  simpl in Hrun.
  destruct (Xml_textToDom _ _ _) as [dom h1].
  destruct (Xml_domToBlock _ _ _ _ _) as [block h2].
  destruct (Xml_blockToDom _ _ _) as [dom' h3].
  destruct (Xml_domToPrettyText _ _ _) as [generatedXml h4].
  intros generated ->.
  rewrite Hrun, Hexpected, Hstrings in Hpass. simpl in Hpass.
  unfold verdict in Hpass.
  destruct (String.eqb generated expected) eqn:Heq; [|discriminate].
  apply String.eqb_eq in Heq. subst expected. split; [reflexivity|].
  intros Hunset. unfold js_or in Hexpected. rewrite Hunset in Hexpected.
  exact Hexpected.
Qed.

(** The suite in terms of the tests of its two nested suites.  A setup or
    teardown failure of the round-trip suite ends that suite only. *)
Lemma serialization_suite_unfold (this : Context Workspace)
    (testCases : list (SerializationTestCase Block Heap))
    (runs1 runs2 : list (TestRun Dom Block Workspace Heap)) w w1 w2
    (err : option (nat * exn)) :
  run_tests ["Serialization"; "xmlToBlock"] xmlToBlock_hooks xmlToBlock_hooks
    this (map (createXmlToBlockTestCallback Blockly) testCases) w
    = (runs1, w1, None) ->
  run_tests ["Serialization"; "xml round-trip"] roundTrip_ups roundTrip_downs
    this (map (createXmlRoundTripTestCallback Blockly assert) testCases) w1
    = (runs2, w2, err) ->
  settle 2 err = None ->
  mocha_run (runSerializationTestSuite Blockly assert testCases) this w
    = (runs1 ++ runs2, w2).
Proof.
  unfold xmlToBlock_hooks, roundTrip_ups, roundTrip_downs.
  intros Hrun1 Hrun2 Hsettle.
  pose (body1 := runTestCases testCases (createXmlToBlockTestCallback Blockly)).
  pose (body2 :=
          DeclSetup roundTrip_setup
          :: DeclTeardown roundTrip_teardown
          :: runTestCases testCases
               (createXmlRoundTripTestCallback Blockly assert)).
  destruct (tests_of_runTestCases testCases (createXmlToBlockTestCallback Blockly))
    as (Ht1 & Hs1 & Hd1 & Hc1).
  fold body1 in Ht1, Hs1, Hd1, Hc1.
  assert (tests_of body2
          = map (createXmlRoundTripTestCallback Blockly assert) testCases /\
          setups_of body2 = [roundTrip_setup] /\
          teardowns_of body2 = [roundTrip_teardown] /\
          forall run w, run_children run body2 w = ([], w, None))
    as (Ht2 & Hs2 & Hd2 & Hc2).
  { destruct (tests_of_runTestCases testCases
                (createXmlRoundTripTestCallback Blockly assert))
      as (Ht & Hs & Hd & Hc).
    unfold body2.
    repeat split; [rewrite <- Ht | rewrite <- Hs | rewrite <- Hd | intros; apply Hc];
      reflexivity. }
  change (mocha_run (runSerializationTestSuite Blockly assert testCases) this w)
    with (fst (run_suite [] [] [] this
                 (DeclSuite ""
                    [DeclSuite "Serialization"
                       [DeclSuite "xmlToBlock" body1;
                        DeclSuite "xml round-trip" body2]]) w)).
  clearbody body1 body2.
  simpl.
  rewrite Ht1, Hs1, Hd1, Hrun1, Hc1.
  rewrite Ht2, Hs2, Hd2, Hrun2.
  destruct err as [[k e]|].
  - simpl in Hsettle. simpl. rewrite Hsettle. simpl.
    rewrite !app_nil_r. reflexivity.
  - rewrite Hc2. simpl. rewrite !app_nil_r. reflexivity.
Qed.

(** The xmlToBlock tests have no hooks: every one of them runs, and they
    leave the stubs as they are. *)
Lemma xmlToBlock_tests_frame (this : Context Workspace)
    (testCases : list (SerializationTestCase Block Heap)) w :
  exists runs w',
    run_tests ["Serialization"; "xmlToBlock"] xmlToBlock_hooks xmlToBlock_hooks
      this (map (createXmlToBlockTestCallback Blockly) testCases) w
      = (runs, w', None) /\
    env w' = env w /\ sandbox w' = sandbox w /\
    Forall2 (fun testCase r =>
               run_path r = ["Serialization"; "xmlToBlock"] /\
               run_entry r = run_before r /\
               run_after r = run_leave r /\
               env (run_entry r) = env w /\
               sandbox (run_entry r) = sandbox w /\
               (run_leave r, run_result r)
                 = (let run := createXmlToBlockTestCallback Blockly testCase
                                 this (run_entry r) in
                    (fst run, result_of (snd run))))
            testCases runs.
Proof.
  unfold xmlToBlock_hooks.
  revert w. induction testCases as [|tc tcs IH]; intros w; simpl.
  - exists [], w. repeat split; constructor.
  - unfold run_test; simpl.
    pose proof (xmlToBlock_keeps_stubs Blockly tc this w) as [Henv Hsb].
    destruct (createXmlToBlockTestCallback Blockly tc this w) as [w2 r] eqn:Hrun.
    simpl in *.
    destruct (IH w2) as (runs & w' & -> & Henv' & Hsb' & Hall).
    eexists _, w'. split; [reflexivity|].
    split; [congruence|]. split; [congruence|].
    constructor.
    + simpl. rewrite Hrun. repeat split; reflexivity.
    + eapply Forall2_impl; [exact Hall|]. simpl.
      intros tc' r' (? & ? & ? & ? & ? & ?). repeat split; congruence.
Qed.

(** Setup, a round trip and teardown, from a world with an empty sandbox:
    the properties are back to what they were. *)
Lemma stubs_restored_same_env w w' name :
  sandbox w = [] -> idgen w = Some (Native name) ->
  env w' = env (stub_installed name w) ->
  sandbox w' = sandbox (stub_installed name w) ->
  env (stubs_restored w') = env w.
Proof.
  intros Hempty Hid Henv Hsb. simpl. rewrite Hsb, Henv. simpl.
  rewrite Hempty. simpl. rewrite insert_insert_eq.
  apply insert_id, idgen_lookup, Hid.
Qed.

Lemma roundTrip_tests_clean (name : string) (this : Context Workspace)
    (testCases : list (SerializationTestCase Block Heap)) w :
  sandbox w = [] -> idgen w = Some (Native name) ->
  exists runs w',
    run_tests ["Serialization"; "xml round-trip"] roundTrip_ups roundTrip_downs
      this (map (createXmlRoundTripTestCallback Blockly assert) testCases) w
      = (runs, w', None) /\
    env w' = env w /\ sandbox w' = [] /\
    Forall2 (fun testCase r =>
               env (run_before r) = env w /\ sandbox (run_before r) = [] /\
               env (run_after r) = env w /\ sandbox (run_after r) = [])
            testCases runs.
Proof.
  unfold roundTrip_ups, roundTrip_downs.
  revert w. induction testCases as [|tc tcs IH]; intros w Hempty Hid; simpl.
  - exists [], w. repeat split; try assumption. constructor.
  - unfold run_test; simpl.
    rewrite (roundTrip_setup_run this w name Hid).
    pose proof (roundTrip_keeps_stubs Blockly assert tc this
                  (stub_installed name w)) as [Henv Hsb].
    destruct (createXmlRoundTripTestCallback Blockly assert tc this
                (stub_installed name w)) as [w2 r] eqn:Hrun.
    simpl fst in *.
    pose proof (stubs_restored_same_env w w2 name Hempty Hid Henv Hsb) as Hsame.
    assert (Hid3 : idgen (stubs_restored w2) = Some (Native name)).
    { rewrite (idgen_same_env _ _ Hsame). exact Hid. }
    destruct (IH (stubs_restored w2) eq_refl Hid3)
      as (runs & w' & Hruns & Henv' & Hsb' & Hall).
    simpl. change (emit SinonRestore
                     (set_sandbox [] (set_env (restore_fakes (sandbox w2) (env w2)) w2)))
      with (stubs_restored w2).
    rewrite Hruns.
    eexists _, w'. split; [reflexivity|].
    split; [congruence|]. split; [exact Hsb'|].
    constructor.
    + simpl. repeat split; try assumption; reflexivity.
    + eapply Forall2_impl; [exact Hall|].
      intros tc' r' (? & ? & ? & ?). rewrite <- Hsame.
      repeat split; assumption.
Qed.

(** X7.  Run where nothing is stubbed, the serialization suite leaves the
    toolkit as it found it: before and after every test, and when the suite
    has ended, every property holds what it held at the start, and after
    every round-trip test and at the end the sandbox is empty. *)
Theorem serialization_suite_restores_properties
    (name : string) (this : Context Workspace)
    (testCases : list (SerializationTestCase Block Heap)) w :
  sandbox w = [] ->
  idgen w = Some (Native name) ->
  exists runs w',
    mocha_run (runSerializationTestSuite Blockly assert testCases) this w
      = (runs, w') /\
    length runs = (2 * length testCases)%nat /\
    Forall (fun r => env (run_before r) = env w /\ sandbox (run_before r) = [] /\
                     env (run_after r) = env w /\ sandbox (run_after r) = [])
           runs /\
    env w' = env w /\ sandbox w' = [].
Proof.
  intros Hempty Hid.
  destruct (xmlToBlock_tests_frame this testCases w)
    as (runs1 & w1 & Hrun1 & Henv1 & Hsb1 & Hall1).
  assert (Hid1 : idgen w1 = Some (Native name)).
  { rewrite (idgen_same_env _ _ Henv1). exact Hid. }
  rewrite Hempty in Hsb1.
  destruct (roundTrip_tests_clean name this testCases w1 Hsb1 Hid1)
    as (runs2 & w2 & Hrun2 & Henv2 & Hsb2 & Hall2).
  exists (runs1 ++ runs2), w2.
  split; [exact (serialization_suite_unfold this testCases _ _ _ _ _ _
                   Hrun1 Hrun2 eq_refl)|].
  split.
  { rewrite length_app, <- (Forall2_length _ _ _ Hall1),
      <- (Forall2_length _ _ _ Hall2). simpl. rewrite Nat.add_0_r. reflexivity. }
  split; [|split; congruence].
  apply Forall_app. split.
  - clear -Hall1 Hempty Henv1 Hsb1.
    induction Hall1 as [|tc r tcs rs (_ & Hentry & Hafter & Henv & Hsb & Hleave) _ IH];
      constructor; [|exact IH].
    pose proof (xmlToBlock_keeps_stubs Blockly tc this (run_entry r)) as [He Hs].
    simpl in Hleave, He, Hs. injection Hleave as Hl Hr.
    rewrite <- Hl in He, Hs.
    rewrite <- Hentry, Hafter.
    repeat split; congruence.
  - clear -Hall2 Henv1.
    induction Hall2 as [|tc r tcs rs (? & ? & ? & ?) _ IH];
      constructor; [|exact IH].
    repeat split; congruence.
Qed.

(** X9.  A case that fails does not keep the later ones from running: from
    a world where the unique-ID function is the toolkit's own, every case
    is run once in each group, in the order of the cases, and what is
    recorded for it is the verdict of its callback, passed or failed; no
    test is skipped. *)
Theorem serialization_suite_runs_every_case
    (name : string) (this : Context Workspace)
    (testCases : list (SerializationTestCase Block Heap)) w :
  sandbox_wf w ->
  idgen w = Some (Native name) ->
  exists runs1 runs2 w',
    mocha_run (runSerializationTestSuite Blockly assert testCases) this w
      = (runs1 ++ runs2, w') /\
    Forall2 (fun testCase r =>
               match run_result r with
               | Passed =>
                   snd (createXmlToBlockTestCallback Blockly testCase this
                          (run_entry r)) = inr tt
               | Failed e =>
                   snd (createXmlToBlockTestCallback Blockly testCase this
                          (run_entry r)) = inl e
               | NotRun _ => False
               end)
            testCases runs1 /\
    Forall2 (fun testCase r =>
               match run_result r with
               | Passed =>
                   snd (createXmlRoundTripTestCallback Blockly assert testCase
                          this (run_entry r)) = inr tt
               | Failed e =>
                   snd (createXmlRoundTripTestCallback Blockly assert testCase
                          this (run_entry r)) = inl e
               | NotRun _ => False
               end)
            testCases runs2.
Proof.
  intros Hwf Hid.
  destruct (serialization_suite_run Blockly assert name this testCases w
              (conj Hwf Hid))
    as (runs1 & runs2 & w' & Hrun & Hall1 & Hall2 & _).
  exists runs1, runs2, w'. split; [exact Hrun|]. split.
  - eapply Forall2_impl; [exact Hall1|]. clear.
    intros tc r [_ (_ & Hentry & _ & _ & Hres)].
    rewrite Hres, Hentry. unfold result_of.
    destruct (snd _) as [e|[]]; reflexivity.
  - eapply Forall2_impl; [exact Hall2|]. clear.
    intros tc r [_ (_ & _ & _ & _ & Hres)].
    rewrite Hres. unfold result_of.
    destruct (snd _) as [e|[]]; reflexivity.
Qed.

(** X10.  When the unique-ID function is already stubbed, or the property
    is missing, as the suite starts, the xmlToBlock tests all run, but the
    setup hook of the first round-trip test throws: no round-trip callback
    runs, for that case or a later one.  The teardown hook still runs once
    and restores whatever the sandbox holds. *)
Theorem serialization_suite_setup_failure
    (this : Context Workspace)
    (testCase : SerializationTestCase Block Heap)
    (testCases : list (SerializationTestCase Block Heap)) w :
  env w !! genUid_path (env w) = None \/ (exists v, idgen w = Some (Stub v)) ->
  exists runs1 w1 msg,
    mocha_run (runSerializationTestSuite Blockly assert (testCase :: testCases))
              this w
      = (runs1 ++ [MkTestRun ["Serialization"; "xml round-trip"] w1 w1 w1
                     (stubs_restored w1) (NotRun (TypeError msg))],
         stubs_restored w1) /\
    length runs1 = S (length testCases) /\
    Forall (fun r => run_path r = ["Serialization"; "xmlToBlock"] /\
                     forall err, run_result r <> NotRun err) runs1 /\
    env w1 = env w /\ sandbox w1 = sandbox w.
Proof.
  intros Hnot.
  destruct (xmlToBlock_tests_frame this (testCase :: testCases) w)
    as (runs1 & w1 & Hrun1 & Henv1 & Hsb1 & Hall1).
  assert (Hnot1 : env w1 !! genUid_path (env w1) = None \/
                  (exists v, idgen w1 = Some (Stub v))).
  { rewrite (idgen_same_env _ _ Henv1), Henv1. exact Hnot. }
  destruct (roundTrip_setup_fails this w1 Hnot1) as [msg Hfail].
  exists runs1, w1, msg.
  split; [|split; [symmetry; exact (Forall2_length _ _ _ Hall1)|split; [|auto]]].
  - eapply serialization_suite_unfold with (err := Some (2%nat, TypeError msg));
      [exact Hrun1| |reflexivity].
    unfold roundTrip_ups, roundTrip_downs. simpl. unfold run_test. simpl.
    rewrite Hfail. simpl. reflexivity.
  - clear -Hall1.
    induction Hall1 as [|tc r tcs rs (Hpath & _ & _ & _ & _ & Hleave) _ IH];
      constructor; [|exact IH].
    split; [exact Hpath|]. intros err.
    simpl in Hleave. injection Hleave as _ ->.
    unfold result_of. destruct (snd _); discriminate.
Qed.

End FurtherProperties.

(** ** Further runs on the sample toolkit *)

Section FurtherSampleRuns.

Import Sample.

(** A case that fails does not stop the ones after it. *)
Example sample_failing_case_results :
  map run_result
      (fst (mocha_run (runSerializationTestSuite blockly chai [mismatch; plain])
              this world))
  = [Failed (StructureError "wrong shape");
     Passed;
     Failed (AssertionError (VStr "<block></block>") (VStr "<block/>"));
     Passed].
Proof. vm_compute. reflexivity. Qed.

(** With the unique-ID function already stubbed, the round-trip suite stops
    at its first setup; its teardown puts the original back. *)
Example sample_stubbed_suite_results :
  let run :=
    mocha_run (runSerializationTestSuite blockly chai [plain; emptyExpected])
              this stubbed_world in
  map run_result (fst run)
  = [Passed; Passed;
     NotRun (TypeError "Attempted to wrap a function which is already wrapped")]
  /\ idgen (snd run) = Some (Native "uid")
  /\ sandbox (snd run) = [].
Proof. vm_compute. repeat split; reflexivity. Qed.

(** On a property that is not a function the setup hook returns and
    replaces nothing; on a stub it throws. *)
Example sample_setup_outcomes :
  roundTrip_setup this odd_world
  = (MkWorld 0 (env odd_world) []
       [SinonStub path_TEST_ONLY_genUid;
        StubReturns path_TEST_ONLY_genUid (VStr "1")],
     inr tt)
  /\ roundTrip_setup this stubbed_world
      = (stubbed_world,
         inl (TypeError "Attempted to wrap a function which is already wrapped")).
Proof. split; vm_compute; reflexivity. Qed.


(** X4 on a case that spells out [false]. *)
Lemma codegen_useWorkspaceToCode_truthiness_witness :
  truthy (useWorkspaceToCode literal_false) = truthy (useWorkspaceToCode literal) /\
  createCodeGenerationTestFn_ chai gen literal_false this world
  = createCodeGenerationTestFn_ chai gen literal this world.
Proof.
  split; [reflexivity|].
  exact (codegen_useWorkspaceToCode_truthiness chai gen literal literal_false
           this world eq_refl eq_refl eq_refl eq_refl).
Defined.

(** X5 on two generators that differ on single blocks. *)
Lemma codegen_workspace_mode_ignores_order_witness :
  truthy (useWorkspaceToCode whole) = true /\
  expectedInnerOrder whole_unordered <> expectedInnerOrder whole /\
  createCodeGenerationTestFn_ chai other_gen whole_unordered this world
  = createCodeGenerationTestFn_ chai gen whole this world.
Proof.
  split; [reflexivity|]. split; [discriminate|].
  exact (codegen_workspace_mode_ignores_order chai gen other_gen whole
           whole_unordered this world
           eq_refl eq_refl eq_refl eq_refl eq_refl eq_refl).
Defined.

(** X6 on a passing case without [expectedXml]. *)
Lemma roundTrip_pass_means_same_text_witness :
  js_or (expectedXml plain) (xml plain) = VStr "<block></block>" /\
  snd (createXmlRoundTripTestCallback blockly chai plain this world) = inr tt /\
  xml plain = VStr "<block></block>".
Proof.
  split; [reflexivity|]. split; [vm_compute; reflexivity|].
  exact (proj2 (roundTrip_pass_means_same_text blockly chai plain this world
                  "<block></block>" (fun s t => eq_refl) eq_refl eq_refl
                  "<block></block>" eq_refl) eq_refl).
Defined.

(** X7 on two cases, one of which fails. *)
Lemma serialization_suite_restores_properties_witness :
  sandbox world = [] /\
  idgen world = Some (Native "uid") /\
  exists runs w',
    mocha_run (runSerializationTestSuite blockly chai [mismatch; plain])
              this world = (runs, w') /\
    length runs = 4%nat /\
    env w' = env world /\ sandbox w' = [].
Proof.
  split; [reflexivity|]. split; [reflexivity|].
  destruct (serialization_suite_restores_properties blockly chai "uid" this
              [mismatch; plain] world eq_refl eq_refl)
    as (runs & w' & Hrun & Hlen & _ & Henv & Hsb).
  exists runs, w'. repeat split; assumption.
Defined.

(** X9 on two cases, the first of which fails. *)
Lemma serialization_suite_runs_every_case_witness :
  sandbox_wf world /\
  idgen world = Some (Native "uid") /\
  exists runs1 runs2 w',
    mocha_run (runSerializationTestSuite blockly chai [mismatch; plain])
              this world = (runs1 ++ runs2, w') /\
    length runs1 = 2%nat /\ length runs2 = 2%nat.
Proof.
  split; [exact sample_world_wf|]. split; [reflexivity|].
  destruct (serialization_suite_runs_every_case blockly chai "uid" this
              [mismatch; plain] world sample_world_wf eq_refl)
    as (runs1 & runs2 & w' & Hrun & Hall1 & Hall2).
  exists runs1, runs2, w'. split; [exact Hrun|].
  split; symmetry; [exact (Forall2_length _ _ _ Hall1)
                   | exact (Forall2_length _ _ _ Hall2)].
Defined.

(** X10 on a world where the unique-ID function is already stubbed. *)
Lemma serialization_suite_setup_failure_witness :
  idgen stubbed_world = Some (Stub (VStr "x")) /\
  exists runs1 w1 msg,
    mocha_run (runSerializationTestSuite blockly chai [plain; emptyExpected])
              this stubbed_world
      = (runs1 ++ [MkTestRun ["Serialization"; "xml round-trip"] w1 w1 w1
                     (stubs_restored w1) (NotRun (TypeError msg))],
         stubs_restored w1) /\
    length runs1 = 2%nat.
Proof.
  split; [reflexivity|].
  destruct (serialization_suite_setup_failure blockly chai this plain
              [emptyExpected] stubbed_world
              (or_intror (ex_intro _ (VStr "x") eq_refl)))
    as (runs1 & w1 & msg & Hrun & Hlen & _).
  exists runs1, w1, msg. split; [exact Hrun | exact Hlen].
Defined.

(** C10 as the claim words it fails where a stub belongs to another
    sandbox: the world is one the suite runs in (sinon's bookkeeping is
    sound, the unique-ID function is the toolkit's own), and after the
    teardown of the round-trip test the stub on [window.confirm] is still
    in place. *)
Lemma roundTrip_teardown_keeps_foreign_stub :
  sandbox_wf foreign_world /\
  idgen foreign_world = Some (Native "uid") /\
  map (fun r => (run_path r, env (run_after r) !! "window.confirm"))
      (fst (mocha_run (runSerializationTestSuite blockly chai [plain])
              this foreign_world))
  = [(["Serialization"; "xmlToBlock"], Some (Function (Stub (VBool true))));
     (["Serialization"; "xml round-trip"], Some (Function (Stub (VBool true))))] /\
  ~ teardown_clears_every_stub blockly chai [plain] this foreign_world.
Proof.
  split; [split; [constructor | intros fk Hfk; inversion Hfk]|].
  split; [reflexivity|].
  split; [vm_compute; reflexivity|].
  unfold teardown_clears_every_stub. intros Hall.
  remember (fst (mocha_run (runSerializationTestSuite blockly chai [plain])
                   this foreign_world)) as runs eqn:Hruns.
  vm_compute in Hruns. subst runs.
  inversion Hall as [|r1 rs1 _ Htail]; subst.
  inversion Htail as [|r2 rs2 Hstub _]; subst.
  apply (Hstub eq_refl "window.confirm" (VBool true)).
  vm_compute. reflexivity.
Qed.

End FurtherSampleRuns.
